(** * Contribution calendar: merging, week grid, month labels, yearly totals

    A shallow embedding of [src/services/contributions.ts] and the proofs of
    its specification.

    Conventions of the model.
    - A JavaScript [Date] is the number of its local calendar day, counted
      from 1970-01-01 (a [Z]); the time of day is dropped, which changes none
      of the comparisons the program makes (they compare instants that carry
      the same time of day, or a midnight against the end of the window).
      An Invalid Date is [None].
    - The calendar follows ECMA-262 (DayFromYear, YearFromTime, MonthFromTime,
      DateFromTime, WeekDay, MakeDay) and the date-fns functions are written
      from their definitions on top of it.
    - Counts are integers ([Z]); the current instant is the parameter [now].
    - [new Date(string)] reads a date-only string as a UTC midnight; the
      time zone is the parameter [zone], the offset [getTimezoneOffset()]
      reports, in minutes, at the UTC midnight of a day.
    - A JSON object used as a map is a [gmap]; its keys are date strings,
      none of which names a property that every object inherits.
    - An exception is a value of [exn]; fallible functions return [result]. *)

From Stdlib Require Import ZArith Lia List Ascii String.
From stdpp Require Import gmap strings list sorting.

Local Open Scope string_scope.
Local Open Scope Z_scope.

(** ** The calendar of ECMA-262 on day numbers *)

Module Calendar.

(** DayFromYear(y): the day number of January 1 of year [y]. *)
Definition DayFromYear (y : Z) : Z :=
  365 * (y - 1970) + (y - 1969) / 4 - (y - 1901) / 100 + (y - 1601) / 400.

Definition InLeapYear (y : Z) : bool :=
  (y mod 4 =? 0) && (negb (y mod 100 =? 0) || (y mod 400 =? 0)).

Definition DaysInYear (y : Z) : Z := if InLeapYear y then 366 else 365.

(** YearFromTime: the largest [y] with [DayFromYear y <= d]; the estimate
    from the mean year length is off by at most one. *)
Definition YearFromDay (d : Z) : Z :=
  let y0 := 1970 + (400 * d) / 146097 in
  if d <? DayFromYear y0 then y0 - 1
  else if DayFromYear (y0 + 1) <=? d then y0 + 1
  else y0.

Definition DayWithinYear (d : Z) : Z := d - DayFromYear (YearFromDay d).

(** The day within the year on which month [m] (0 = January) starts. *)
Definition monthStart (leap : bool) (m : Z) : Z :=
  let l := if leap then 1 else 0 in
  if m <=? 0 then 0
  else if m =? 1 then 31
  else if m =? 2 then 59 + l
  else if m =? 3 then 90 + l
  else if m =? 4 then 120 + l
  else if m =? 5 then 151 + l
  else if m =? 6 then 181 + l
  else if m =? 7 then 212 + l
  else if m =? 8 then 243 + l
  else if m =? 9 then 273 + l
  else if m =? 10 then 304 + l
  else if m =? 11 then 334 + l
  else 365 + l.

(** MonthFromTime, 0 = January. *)
Definition MonthFromDay (d : Z) : Z :=
  let leap := InLeapYear (YearFromDay d) in
  let w := DayWithinYear d in
  if w <? monthStart leap 1 then 0
  else if w <? monthStart leap 2 then 1
  else if w <? monthStart leap 3 then 2
  else if w <? monthStart leap 4 then 3
  else if w <? monthStart leap 5 then 4
  else if w <? monthStart leap 6 then 5
  else if w <? monthStart leap 7 then 6
  else if w <? monthStart leap 8 then 7
  else if w <? monthStart leap 9 then 8
  else if w <? monthStart leap 10 then 9
  else if w <? monthStart leap 11 then 10
  else 11.

(** DateFromTime, 1 = the first of the month. *)
Definition DateFromDay (d : Z) : Z :=
  DayWithinYear d - monthStart (InLeapYear (YearFromDay d)) (MonthFromDay d) + 1.

(** WeekDay, 0 = Sunday; day 0 (1970-01-01) is a Thursday. *)
Definition WeekDay (d : Z) : Z := (d + 4) mod 7.

(** MakeDay(year, month, date): months outside 0..11 carry into the year. *)
Definition MakeDay (year month date : Z) : Z :=
  let ym := year + month / 12 in
  let mn := month mod 12 in
  DayFromYear ym + monthStart (InLeapYear ym) mn + date - 1.

Definition daysInMonth (y m : Z) : Z :=
  monthStart (InLeapYear y) (m + 1) - monthStart (InLeapYear y) m.

End Calendar.

Import Calendar.

(** ** Strings of numbers and dates *)

Module JsString.

Definition digitChar (k : Z) : ascii := ascii_of_nat (48 + Z.to_nat k).

Definition digitVal (c : ascii) : option Z :=
  let n := Z.of_nat (nat_of_ascii c) in
  if (48 <=? n) && (n <=? 57) then Some (n - 48) else None.

(** The decimal digits of a non-negative integer, most significant first. *)
Fixpoint natDigits (fuel : nat) (n : Z) (acc : string) : string :=
  match fuel with
  | O => acc
  | S f =>
      let acc' := String (digitChar (n mod 10)) acc in
      if n / 10 =? 0 then acc' else natDigits f (n / 10) acc'
  end.

Definition digitsFuel (n : Z) : nat := S (Z.to_nat (Z.log2 n)).

(** [String(n)] and [`${n}`] for an integer [n]. *)
Definition toString (n : Z) : string :=
  if n <? 0 then "-" +:+ natDigits (digitsFuel (- n)) (- n) ""
  else natDigits (digitsFuel n) n "".

Fixpoint zeros (k : nat) (s : string) : string :=
  match k with
  | O => s
  | S k' => String "0" (zeros k' s)
  end.

(** date-fns [addLeadingZeros(number, targetLength)]. *)
Definition addLeadingZeros (number : Z) (targetLength : nat) : string :=
  let sign := if number <? 0 then "-" else "" in
  let output := toString (Z.abs number) in
  sign +:+ zeros (targetLength - String.length output) output.

End JsString.

Import JsString.

(** ** The date-fns functions the program imports *)

Module DateFns.

Definition addDays (d amount : Z) : Z := d + amount.

Definition getDay (d : Z) : Z := WeekDay d.

Definition getMonth (d : Z) : Z := MonthFromDay d.

Definition getFullYear (d : Z) : Z := YearFromDay d.

(** [setDay(date, day)] with the default week start, Sunday, for which
    [delta = 7 - weekStartsOn] is 7:
    [diff = day < 0 || day > 6
              ? day - ((currentDay + delta) % 7)
              : ((dayIndex + delta) % 7) - ((currentDay + delta) % 7)]. *)
Definition setDay (d day : Z) : Z :=
  let currentDay := getDay d in
  let remainder := Z.rem day 7 in
  let dayIndex := Z.rem (remainder + 7) 7 in
  let diff :=
    if (day <? 0) || (6 <? day)
    then day - Z.rem (currentDay + 7) 7
    else Z.rem (dayIndex + 7) 7 - Z.rem (currentDay + 7) 7 in
  addDays d diff.

(** [subYears(date, n) = addMonths(date, -12 n)]: the day of the month is
    capped by the length of the target month. *)
Definition addMonths (d amount : Z) : Z :=
  let desiredMonth := getMonth d + amount in
  let dateWithDesiredMonth := MakeDay (getFullYear d) desiredMonth 1 in
  let dim := daysInMonth (getFullYear dateWithDesiredMonth)
                         (getMonth dateWithDesiredMonth) in
  MakeDay (getFullYear d) desiredMonth (Z.min dim (DateFromDay d)).

Definition subYears (d amount : Z) : Z := addMonths d (- (amount * 12)).

(** [isAfter(date, dateToCompare)]; an Invalid Date compares false. *)
Definition isAfter (date : option Z) (dateToCompare : Z) : bool :=
  match date with
  | Some d => dateToCompare <? d
  | None => false
  end.

(** [isSameYear(dateLeft, dateRight)]. *)
Definition isSameYear (dateLeft : option Z) (dateRight : Z) : bool :=
  match dateLeft with
  | Some d => getFullYear d =? getFullYear dateRight
  | None => false
  end.

Definition monthName (m : Z) : string :=
  if m =? 0 then "Jan" else if m =? 1 then "Feb" else if m =? 2 then "Mar"
  else if m =? 3 then "Apr" else if m =? 4 then "May" else if m =? 5 then "Jun"
  else if m =? 6 then "Jul" else if m =? 7 then "Aug" else if m =? 8 then "Sep"
  else if m =? 9 then "Oct" else if m =? 10 then "Nov" else "Dec".

(** [format(date, 'yyyy-MM-dd')]: the year token prints [y] for [y > 0]
    and [1 - y] otherwise, as date-fns does. *)
Definition format (d : Z) : string :=
  let signedYear := getFullYear d in
  let year := if 0 <? signedYear then signedYear else 1 - signedYear in
  addLeadingZeros year 4 +:+ "-" +:+ addLeadingZeros (getMonth d + 1) 2
    +:+ "-" +:+ addLeadingZeros (DateFromDay d) 2.

(** [format(date, 'MMM')]. *)
Definition formatMMM (d : Z) : string := monthName (getMonth d).

Definition num2 (a b : ascii) : option Z :=
  match digitVal a, digitVal b with
  | Some x, Some y => Some (10 * x + y)
  | _, _ => None
  end.

Definition num4 (a b c e : ascii) : option Z :=
  match num2 a b, num2 c e with
  | Some x, Some y => Some (100 * x + y)
  | _, _ => None
  end.

(** date-fns [validateDate(year, month, date)]. *)
Definition validateDate (year month date : Z) : bool :=
  (0 <=? month) && (month <=? 11) && (1 <=? date)
  && (date <=? daysInMonth year month).

(** date-fns [validateDayOfYearDate(year, dayOfYear)]. *)
Definition validateDayOfYearDate (year dayOfYear : Z) : bool :=
  (1 <=? dayOfYear) && (dayOfYear <=? DaysInYear year).

Definition num3 (a b c : ascii) : option Z :=
  match digitVal a, num2 b c with
  | Some x, Some y => Some (100 * x + y)
  | _, _ => None
  end.

Definition num6 (a b c d e f : ascii) : option Z :=
  match num4 a b c d, num2 e f with
  | Some x, Some y => Some (100 * x + y)
  | _, _ => None
  end.

Definition isSign (c : ascii) : bool := Ascii.eqb c "-" || Ascii.eqb c "+".

Definition signed (c : ascii) (n : Z) : Z := if Ascii.eqb c "-" then - n else n.

(** date-fns [parseYear] with the default two additional digits: the
    regular expression [^(?:(\d{4}|[+-]\d{6})|(\d{2}|[+-]\d{4})$)]. Four
    digits, or a sign and six digits, are a year and leave the rest of the
    string; two digits, or a sign and four digits, at the end of the string
    are a century. *)
Definition parseYear (cs : list ascii) : option (Z * list ascii) :=
  match cs with
  | [a; b] =>
      match num2 a b with
      | Some century => Some (century * 100, [])
      | None => None
      end
  | a :: b :: c :: d :: rest =>
      match num4 a b c d with
      | Some year => Some (year, rest)
      | None =>
          if isSign a then
            match rest with
            | [e] =>
                match num4 b c d e with
                | Some century => Some (signed a century * 100, [])
                | None => None
                end
            | e :: f :: g :: rest' =>
                match num6 b c d e f g with
                | Some year => Some (signed a year, rest')
                | None => None
                end
            | _ => None
            end
          else None
      end
  | _ => None
  end.

(** date-fns [parseDate]: the regular expression
    [^-?(?:(\d{3})|(\d{2})(?:-?(\d{2}))?|W(\d{2})(?:-?(\d{1}))?|)$] on the
    rest of the string. Three digits are a day of the year, two a month,
    four (with or without a hyphen between) a month and a day, nothing is
    January 1; a unit that is not written counts as 1. Week dates (with a
    [W]) are left out of the model. *)
Definition parseDate (rest : list ascii) (year : Z) : option Z :=
  let rest' :=
    match rest with
    | c :: r => if Ascii.eqb c "-" then r else rest
    | [] => []
    end in
  match rest' with
  | [] => Some (MakeDay year 0 1)
  | [a; b] =>
      match num2 a b with
      | Some month =>
          if validateDate year (month - 1) 1 then Some (MakeDay year (month - 1) 1)
          else None
      | None => None
      end
  | [a; b; c] =>
      match num3 a b c with
      | Some dayOfYear =>
          if validateDayOfYearDate year dayOfYear then Some (MakeDay year 0 dayOfYear)
          else None
      | None => None
      end
  | [a; b; c; d] =>
      match num2 a b, num2 c d with
      | Some month, Some date =>
          if validateDate year (month - 1) date
          then Some (MakeDay year (month - 1) date)
          else None
      | _, _ => None
      end
  | [a; b; s; c; d] =>
      if Ascii.eqb s "-" then
        match num2 a b, num2 c d with
        | Some month, Some date =>
            if validateDate year (month - 1) date
            then Some (MakeDay year (month - 1) date)
            else None
        | _, _ => None
        end
      else None
  | _ => None
  end.

(** [parseISO] on a string without a time part, which is every string this
    program gives it (digits and hyphens); a string with a time part or a
    week date is taken to be an Invalid Date. The date is the local day
    with these calendar fields. *)
Definition parseISO (s : string) : option Z :=
  match parseYear (list_ascii_of_string s) with
  | Some (year, rest) => parseDate rest year
  | None => None
  end.

End DateFns.

Import DateFns.

(** ** Exceptions and fallible results *)

Inductive exn : Type :=
| Error (message : string)
| RangeError (message : string)
| TypeError (message : string).

Definition message (e : exn) : string :=
  match e with
  | Error m | RangeError m | TypeError m => m
  end.

Inductive result (A : Type) : Type :=
| Ok (a : A)
| Throw (e : exn).

Arguments Ok {A} a.
Arguments Throw {A} e.

#[global] Instance result_ret : MRet result := fun A a => Ok a.

#[global] Instance result_bind : MBind result := fun A B f m =>
  match m with
  | Ok a => f a
  | Throw e => Throw e
  end.

(** What [format] throws on an Invalid Date, and what reading [.date] of
    [undefined] throws. *)
Definition invalidTime : exn := RangeError "Invalid time value".
Definition undefinedDate : exn := TypeError "Cannot read property 'date' of undefined".

(** ** Data model *)

Module Contribution.
Record t : Type := mk {
  date : string;
  count : Z;
  color : string;
  intensity : option Z   (* [None]: the property is missing *)
}.
End Contribution.

Module Range.
Record t : Type := mk { start : string; end_ : string }.
End Range.

Module YearEntry.
Record t : Type := mk { year : string; total : Z; range : Range.t }.
End YearEntry.

Module ApiResult.
Record t : Type := mk {
  years : list YearEntry.t;
  contributions : list Contribution.t
}.
End ApiResult.

Module Block.
Record t : Type := mk { date : string; info : option Contribution.t }.
End Block.

Module MonthLabel.
Record t : Type := mk { x : nat; label : string }.
End MonthLabel.

Abbreviation MonthLabels := (list MonthLabel.t).
Abbreviation Grid := (list (list Block.t)).

Module GraphData.
Record t : Type := mk {
  year : Z;
  blocks : Grid;
  monthLabels : MonthLabels;
  totalCount : Z
}.
End GraphData.

Module RequestOptions.
Record t : Type := mk {
  fullYear : bool;
  gitHubUsername : option string;
  gitLabUsername : option string;
  years : list Z
}.
End RequestOptions.

(** The entries of the colour table [t] of [combineContributions]. *)
Module Shade.
Record t : Type := mk { color : string; intensity : option Z }.
End Shade.

(** ** Array helpers *)

Module JsArray.

(** [findIndex]; [None] stands for -1. *)
Fixpoint findIndex {A : Type} (p : A -> bool) (l : list A) : option nat :=
  match l with
  | [] => None
  | a :: l' => if p a then Some O else option_map S (findIndex p l')
  end.

(** [slice(begin, end)] for indices within the array. *)
Definition slice {A : Type} (l : list A) (begin end_ : nat) : list A :=
  firstn (end_ - begin) (skipn begin l).

End JsArray.

Import JsArray.

(** ** The program: [src/services/contributions.ts] *)

Definition getContributionsForDate (data : ApiResult.t) (date : string)
  : option Contribution.t :=
  List.find (fun contrib => String.eqb (Contribution.date contrib) date)
            (ApiResult.contributions data).

Definition getContributionCountForLastYear (now : Z) (data : ApiResult.t) : Z :=
  let contributions := ApiResult.contributions data in
  match findIndex (fun contrib => String.eqb (Contribution.date contrib) (format now))
                  contributions with
  | None => 0
  | Some begin =>
      let end_ :=
        match findIndex (fun contrib =>
                 String.eqb (Contribution.date contrib) (format (subYears now 1)))
                contributions with
        | Some e => e
        | None => (length contributions - 1)%nat
        end in
      fold_left (fun acc contrib => acc + Contribution.count contrib)
                (slice contributions begin end_) 0
  end.

Definition getContributionCountForYear (data : ApiResult.t) (year : Z) : Z :=
  match List.find (fun entry => String.eqb (YearEntry.year entry) (toString year))
                  (ApiResult.years data) with
  | Some yearEntry => YearEntry.total yearEntry
  | None => 0
  end.

(** The [while (weekStart <= lastDate)] loop of [getBlocksForYear]. Every
    turn moves [weekStart] forward, so [lastDate - weekStart + 1] turns are
    enough ([firstRowDates_unfold] below). *)
Fixpoint firstRowLoop (fuel : nat) (data : ApiResult.t) (weekStart lastDate : Z)
  : list Block.t :=
  match fuel with
  | O => []
  | S fuel' =>
      if weekStart <=? lastDate then
        let date := format weekStart in
        Block.mk date (getContributionsForDate data date)
          :: firstRowLoop fuel' data (setDay weekStart 7) lastDate
      else []
  end.

Definition firstRowDates (data : ApiResult.t) (weekStart lastDate : Z) : list Block.t :=
  firstRowLoop (Z.to_nat (lastDate - weekStart + 1)) data weekStart lastDate.

(** The [for (let i = 0; i <= 6; i += 1)] loop over the days of one week,
    from day index [i], with [n] indices left. *)
Fixpoint weekDays (n : nat) (data : ApiResult.t) (lastDate : Z) (weekDate : Z) (i : Z)
  : list Block.t :=
  match n with
  | O => []
  | S n' =>
      let date := format (setDay weekDate i) in
      if isAfter (parseISO date) lastDate then []
      else Block.mk date (getContributionsForDate data date)
             :: weekDays n' data lastDate weekDate (i + 1)
  end.

(** The callback of [firstRowDates.map]: [setDay] of an Invalid Date is
    invalid and [format] throws on it. *)
Definition weekColumn (data : ApiResult.t) (lastDate : Z) (dateObj : Block.t)
  : result (list Block.t) :=
  match parseISO (Block.date dateObj) with
  | None => Throw invalidTime
  | Some weekDate => Ok (weekDays 7 data lastDate weekDate 0)
  end.

(** The body of [getBlocksForYear] once the window is known. *)
Definition blocksForWindow (firstDate lastDate : Z) (data : ApiResult.t) : result Grid :=
  let weekStart :=
    if negb (getDay firstDate =? 0) then addDays firstDate (getDay firstDate)
    else firstDate in
  mapM (weekColumn data lastDate) (firstRowDates data weekStart lastDate).

(** The two ends of the window, [firstDate] and [lastDate] in the source. *)
Definition firstDateOf (now : Z) (year : Z) (fullYear : bool) : option Z :=
  if fullYear then Some (subYears now 1) else parseISO (toString year +:+ "-01-01").

Definition lastDateOf (now : Z) (year : Z) (fullYear : bool) : option Z :=
  if fullYear then Some now else parseISO (toString year +:+ "-12-31").

(** With an Invalid Date for an end of the window the loop condition is
    false at once and the grid is empty. *)
Definition getBlocksForYear (now : Z) (year : Z) (data : ApiResult.t) (fullYear : bool)
  : result Grid :=
  match firstDateOf now year fullYear, lastDateOf now year fullYear with
  | Some firstDate, Some lastDate => blocksForWindow firstDate lastDate data
  | _, _ => Ok []
  end.

(** The reducer of [getMonthLabels], with the index [x] and the variable
    [previousMonth] it closes over passed along. *)
Fixpoint monthLabelsLoop (weeks : Grid) (x : nat) (previousMonth : Z)
  (labels : MonthLabels) : result MonthLabels :=
  match weeks with
  | [] => Ok labels
  | week :: rest =>
      match week with
      | [] => Throw undefinedDate
      | first :: _ =>
          match parseISO (Block.date first) with
          | None => Throw invalidTime
          | Some firstWeekDay =>
              let month := getMonth firstWeekDay + 1 in
              let monthChanged := negb (month =? previousMonth) in
              let firstMonthIsDecember := Nat.eqb x 0 && (month =? 12) in
              if monthChanged && negb firstMonthIsDecember then
                monthLabelsLoop rest (S x) month
                  (labels ++ [MonthLabel.mk x (formatMMM firstWeekDay)])
              else monthLabelsLoop rest (S x) previousMonth labels
          end
      end
  end.

Definition getMonthLabels (blocks : Grid) (fullYear : bool) : result MonthLabels :=
  let weeks :=
    slice blocks 0 (if fullYear then length blocks - 1 else length blocks)%nat in
  let previousMonth := 0 in
  monthLabelsLoop weeks 0 previousMonth [].

Definition getGraphDataForYear (now : Z) (year : Z) (data : ApiResult.t) (fullYear : bool)
  : result GraphData.t :=
  blocks ← getBlocksForYear now year data fullYear;
  monthLabels ← getMonthLabels blocks fullYear;
  let totalCount :=
    if fullYear then getContributionCountForLastYear now data
    else getContributionCountForYear data year in
  mret (GraphData.mk year blocks monthLabels totalCount).

(** [new Date(string)] on a date-only ISO string: the day of the UTC
    midnight the string names. The shapes are [YYYY-MM-DD], [YYYY-MM] and
    [YYYY]; V8 takes a month from 1 to 12 and a day from 1 to 31 and lets a
    day past the end of the month run into the next one. Another string is
    taken to be an Invalid Date. *)
Definition utcDayOfString (s : string) : option Z :=
  match list_ascii_of_string s with
  | [y1; y2; y3; y4] =>
      match num4 y1 y2 y3 y4 with
      | Some year => Some (MakeDay year 0 1)
      | None => None
      end
  | [y1; y2; y3; y4; s1; m1; m2] =>
      if Ascii.eqb s1 "-" then
        match num4 y1 y2 y3 y4, num2 m1 m2 with
        | Some year, Some month =>
            if (1 <=? month) && (month <=? 12) then Some (MakeDay year (month - 1) 1)
            else None
        | _, _ => None
        end
      else None
  | [y1; y2; y3; y4; s1; m1; m2; s2; d1; d2] =>
      if Ascii.eqb s1 "-" && Ascii.eqb s2 "-" then
        match num4 y1 y2 y3 y4, num2 m1 m2, num2 d1 d2 with
        | Some year, Some month, Some date =>
            if (1 <=? month) && (month <=? 12) && (1 <=? date) && (date <=? 31)
            then Some (MakeDay year (month - 1) date)
            else None
        | _, _, _ => None
        end
      else None
  | _ => None
  end.

(** The local day of the UTC midnight of a day, in a zone whose
    [getTimezoneOffset()] at that instant is [zone utcDay] minutes
    (positive behind UTC). *)
Definition localDayOfUtcMidnight (zone : Z -> Z) (utcDay : Z) : Z :=
  utcDay + (- zone utcDay) / 1440.

(** [`${new Date(date).getFullYear()}`]: the string is read as a UTC
    midnight and the year is that of the local day. *)
Definition fullYearString (zone : Z -> Z) (date : string) : string :=
  match utcDayOfString date with
  | Some utcDay => toString (getFullYear (localDayOfUtcMidnight zone utcDay))
  | None => "NaN"
  end.

(** First pass of [combineContributions]: the colour and intensity table. *)
Definition colorTable (contributions : list Contribution.t) : gmap Z Shade.t :=
  fold_left
    (fun t contribution =>
       <[Contribution.count contribution :=
           Shade.mk (Contribution.color contribution)
                    (Contribution.intensity contribution)]> t)
    contributions ∅.

(** The callback of the second pass; it updates the map [years]. *)
Definition addGitlab (zone : Z -> Z) (gitlabContributions : gmap string Z)
  (t : gmap Z Shade.t) (contribution : Contribution.t) (years : gmap string Z)
  : Contribution.t * gmap string Z :=
  match gitlabContributions !! Contribution.date contribution with
  | Some gitlabCount =>
      let year := fullYearString zone (Contribution.date contribution) in
      let years' :=
        match years !! year with
        | Some n => <[year := n + 1]> years
        | None => <[year := 1]> years
        end in
      let count := Contribution.count contribution + gitlabCount in
      match t !! count with
      | Some shade =>
          (Contribution.mk (Contribution.date contribution) count
             (Shade.color shade) (Shade.intensity shade), years')
      | None =>
          (Contribution.mk (Contribution.date contribution) count
             "red" (Contribution.intensity contribution), years')
      end
  | None => (contribution, years)
  end.

Fixpoint secondPass (zone : Z -> Z) (gitlabContributions : gmap string Z)
  (t : gmap Z Shade.t) (contributions : list Contribution.t) (years : gmap string Z)
  : list Contribution.t * gmap string Z :=
  match contributions with
  | [] => ([], years)
  | contribution :: rest =>
      let '(c, years1) := addGitlab zone gitlabContributions t contribution years in
      let '(cs, years2) := secondPass zone gitlabContributions t rest years1 in
      (c :: cs, years2)
  end.

Definition combineContributions (zone : Z -> Z) (gitlabContributions : gmap string Z)
  (githubContributions : ApiResult.t) : ApiResult.t :=
  let t := colorTable (ApiResult.contributions githubContributions) in
  let '(contributions, years) :=
    secondPass zone gitlabContributions t (ApiResult.contributions githubContributions) ∅
    in
  ApiResult.mk
    (map (fun year =>
            YearEntry.mk (YearEntry.year year)
              (match years !! YearEntry.year year with
               | Some n => YearEntry.total year + n
               | None => YearEntry.total year
               end)
              (YearEntry.range year))
         (ApiResult.years githubContributions))
    contributions.

(** The callback of [years.map] in [getGitHubGraphData]. *)
Definition graphDataForRequestedYear (now : Z) (fullYear : bool) (data : ApiResult.t)
  (year : Z) : result GraphData.t :=
  let isCurrentYear := isSameYear (parseISO (toString year)) now in
  getGraphDataForYear now year data (isCurrentYear && fullYear).

(** [getGitHubGraphData] on the two fetched payloads, in the time zone
    [zone]. *)
Definition getGitHubGraphData (now : Z) (zone : Z -> Z) (options : RequestOptions.t)
  (githubData : ApiResult.t) (contributions : gmap string Z)
  : result (list GraphData.t) :=
  let data := combineContributions zone contributions githubData in
  if Nat.eqb (length (ApiResult.years data)) 0 then Throw (Error "No data available")
  else
    mapM (graphDataForRequestedYear now (RequestOptions.fullYear options) data)
         (RequestOptions.years options).

(** ** Notions used to state the properties *)

(** The dates whose [yyyy-MM-dd] string [parseISO] reads back: years 1
    to 9999. *)
Definition inIsoRange (d : Z) : Prop := DayFromYear 1 <= d < DayFromYear 10000.

(** The cell the grid holds for a day. *)
Definition cell (data : ApiResult.t) (d : Z) : Block.t :=
  Block.mk (format d) (getContributionsForDate data (format d)).

(** [n] successive weeks from the day [s], each cut after [lastDate]. *)
Fixpoint weeksFrom (n : nat) (s lastDate : Z) : list (list Z) :=
  match n with
  | O => []
  | S n' => seqZ s (Z.min 7 (lastDate - s + 1)) :: weeksFrom n' (s + 7) lastDate
  end.

(** The number of weeks that start on [s], [s + 7], ... up to [lastDate]. *)
Definition numWeeks (s lastDate : Z) : nat := Z.to_nat ((lastDate - s) / 7 + 1).

(** The first Sunday on or after a day. *)
Definition sundayOnOrAfter (d : Z) : Z := d + (7 - getDay d) mod 7.

(** The sum of the counts of a list of records. *)
Definition sumCounts (l : list Contribution.t) : Z :=
  foldr (fun contrib acc => Contribution.count contrib + acc) 0 l.

(** The dates of the primary series that the secondary source also has and
    that [combineContributions] files under the year [year] in the zone
    [zone]. *)
Definition touchedDates (zone : Z -> Z) (gitlabContributions : gmap string Z)
  (githubContributions : ApiResult.t) (year : string) : list string :=
  filter (fun d => is_Some (gitlabContributions !! d) /\ fullYearString zone d = year)
         (map Contribution.date (ApiResult.contributions githubContributions)).

(** The days of a list that the secondary source has, under their date
    strings, and that lie in the calendar year [year]. *)
Definition touchedDaysOfYear (gitlabContributions : gmap string Z) (days : list Z)
  (year : Z) : list Z :=
  filter (fun d => is_Some (gitlabContributions !! format d) /\ getFullYear d = year) days.

(** The grid of a result, [[]] for an exception. *)
Definition graphBlocks (r : result GraphData.t) : Grid :=
  match r with
  | Ok g => GraphData.blocks g
  | Throw _ => []
  end.

(** The month number (1 to 12) of the first cell of a week-column. *)
Definition firstCellMonth (week : list Block.t) : option Z :=
  match week with
  | [] => None
  | first :: _ => option_map (fun d => getMonth d + 1) (parseISO (Block.date first))
  end.

(** The week-columns [getMonthLabels] walks. *)
Definition labelledWeeks (blocks : Grid) (fullYear : bool) : Grid :=
  if fullYear then removelast blocks else blocks.

(** Whether column [x] of a grid whose columns start in the months
    [months] (numbered 1 to 12) gets a label: column 0 unless it starts in
    December; column 1 when its month differs from that of column 0, or
    column 0 was a December; a later column when its month differs from
    that of the column before. *)
Definition labelled (months : list Z) (x : nat) : bool :=
  match months !! x with
  | None => false
  | Some m =>
      match x with
      | O => negb (m =? 12)
      | S x' =>
          match months !! x' with
          | Some m' => negb (m =? m') || (Nat.eqb x' 0 && (m' =? 12))
          | None => false
          end
      end
  end.

(** Whether the month of column [j] differs from that of the column before
    it, [q] standing for the column before the first. *)
Definition monthChangedAt (q : Z) (months : list Z) (j : nat) : bool :=
  match months !! j with
  | None => false
  | Some m =>
      negb (m =? match j with
                 | O => q
                 | S j' => default 0 (months !! j')
                 end)
  end.

(** The labels of the columns [x], [x + 1], ... with months [months], when
    the tracked month is [p] and no column is column 0. *)
Fixpoint labelsFrom (x : nat) (p : Z) (months : list Z) : MonthLabels :=
  match months with
  | [] => []
  | m :: months' =>
      (if m =? p then [] else [MonthLabel.mk x (monthName (m - 1))])
        ++ labelsFrom (S x) m months'
  end.

(** The reducer of [getMonthLabels] with the tracker started at January
    (month 1), as the specification words it. *)
Definition monthLabelsFromJanuary (blocks : Grid) (fullYear : bool) : result MonthLabels :=
  monthLabelsLoop (labelledWeeks blocks fullYear) 0 1 [].

(** The dates of the cells of a grid, column by column, [[]] for an
    exception. *)
Definition gridDates (r : result Grid) : list (list string) :=
  match r with
  | Ok blocks => map (map Block.date) blocks
  | Throw _ => []
  end.

(** The column index and the text of each label, [[]] for an exception. *)
Definition labelList (r : result MonthLabels) : list (nat * string) :=
  match r with
  | Ok labels => map (fun l => (MonthLabel.x l, MonthLabel.label l)) labels
  | Throw _ => []
  end.

(** How often the map [years] of [combineContributions] counted a year. *)
Definition tally (ys : gmap string Z) (y : string) : Z := default 0 (ys !! y).

(** ** Sample payloads *)

(** Two time zones: UTC, and one five hours behind it. *)
Definition utc : Z -> Z := fun _ => 0.

Definition fiveHoursBehind : Z -> Z := fun _ => 300.

(** A primary series with one record, dated January 1, 2023, and summaries
    of 2023 and 2022; the secondary source has the same date. *)
Definition newYear : ApiResult.t :=
  ApiResult.mk
    [YearEntry.mk "2023" 5 (Range.mk "2023-01-01" "2023-12-31");
     YearEntry.mk "2022" 9 (Range.mk "2022-01-01" "2022-12-31")]
    [Contribution.mk "2023-01-01" 5 "#7bc96f" (Some 2)].

Definition newYearGitlab : gmap string Z := {["2023-01-01" := 2]}.


Definition nov2of2026 : Z := 20759.

(** The primary series of the scenario of the specification. *)
Definition june : ApiResult.t :=
  ApiResult.mk
    [YearEntry.mk "2023" 8 (Range.mk "2023-01-01" "2023-12-31")]
    [Contribution.mk "2023-06-01" 5 "#7bc96f" (Some 2);
     Contribution.mk "2023-06-02" 3 "#c6e48b" (Some 1)].

Definition juneGitlab : gmap string Z := {["2023-06-01" := 2]}.

Definition juneGitlab3 : gmap string Z := {["2023-06-02" := 2]}.

(** 2023-12-09, a Saturday. *)
Definition dec9 : Z := 19700.

(** A series delivered newest first, and the same series oldest first. *)
Definition newestFirst : ApiResult.t :=
  ApiResult.mk []
    [Contribution.mk "2023-12-09" 5 "#7bc96f" (Some 2);
     Contribution.mk "2023-12-08" 3 "#c6e48b" (Some 1);
     Contribution.mk "2022-12-09" 7 "#239a3b" (Some 3)].

Definition oldestFirst : ApiResult.t :=
  ApiResult.mk [] (rev (ApiResult.contributions newestFirst)).

(** ** Further notions *)

(** What a cell's [info] is with respect to the series: the first record
    of the cell's date when there is one, and absent when there is none. *)
Definition cellInfoOk (data : ApiResult.t) (b : Block.t) : Prop :=
  match Block.info b with
  | Some c =>
      exists i, ApiResult.contributions data !! i = Some c
                /\ Contribution.date c = Block.date b
                /\ forall j c', (j < i)%nat -> ApiResult.contributions data !! j = Some c' ->
                                Contribution.date c' <> Block.date b
  | None =>
      Forall (fun c => Contribution.date c <> Block.date b) (ApiResult.contributions data)
  end.

(** MonthFromTime on the day within a year. *)
Definition monthInYear (leap : bool) (w : Z) : Z :=
  if w <? monthStart leap 1 then 0
  else if w <? monthStart leap 2 then 1
  else if w <? monthStart leap 3 then 2
  else if w <? monthStart leap 4 then 3
  else if w <? monthStart leap 5 then 4
  else if w <? monthStart leap 6 then 5
  else if w <? monthStart leap 7 then 6
  else if w <? monthStart leap 8 then 7
  else if w <? monthStart leap 9 then 8
  else if w <? monthStart leap 10 then 9
  else if w <? monthStart leap 11 then 10
  else 11.

(** The month numbers (1 to 12) of the days [c], [c + 7], ... counted from
    January 1 of a year, a day before January 1 being in December. *)
Definition yearColumnMonths (leap : bool) (c : Z) (n : nat) : list Z :=
  map (fun k => if c + 7 * Z.of_nat k <? 0 then 12
                else monthInYear leap (c + 7 * Z.of_nat k) + 1)
      (seq 0 n).

(** The labels of a grid whose walked columns start in the months
    [months]. *)
Definition expectedLabels (months : list Z) : MonthLabels :=
  match months with
  | [] => []
  | m :: months' =>
      ((if m =? 12 then [] else [MonthLabel.mk 0 (monthName (m - 1))])
         ++ labelsFrom 1 (if m =? 12 then 0 else m) months')%list
  end.

Definition monthNames : list string :=
  ["Jan"; "Feb"; "Mar"; "Apr"; "May"; "Jun"; "Jul"; "Aug"; "Sep"; "Oct"; "Nov"; "Dec"].

(** A label sits on a column of the walked grid and carries the short name
    of the month of that column's first cell. *)
Definition labelOnColumn (weeks : Grid) (l : MonthLabel.t) : Prop :=
  exists week first d,
    weeks !! MonthLabel.x l = Some week
    /\ head week = Some first
    /\ parseISO (Block.date first) = Some d
    /\ MonthLabel.label l = formatMMM d.

(** ** Facts about the calendar and the date strings *)

Example epoch_is_1970_01_01 :
  (YearFromDay 0, MonthFromDay 0, DateFromDay 0, WeekDay 0) = (1970, 0, 1, 4).
Proof. reflexivity. Qed.

Example day_2018_01_01 : MakeDay 2018 0 1 = 17532 /\ WeekDay 17532 = 1.
Proof. split; reflexivity. Qed.

Section CalendarFacts.

Lemma DayFromYear_succ (y : Z) : DayFromYear (y + 1) = DayFromYear y + DaysInYear y.
Proof.
  unfold DayFromYear, DaysInYear, InLeapYear.
  destruct (y mod 4 =? 0) eqn:E4; destruct (y mod 100 =? 0) eqn:E100;
    destruct (y mod 400 =? 0) eqn:E400; simpl;
    rewrite ?Z.eqb_eq, ?Z.eqb_neq in *; Z.div_mod_to_equations; lia.
Qed.

Lemma YearFromDay_spec (d : Z) :
  DayFromYear (YearFromDay d) <= d < DayFromYear (YearFromDay d + 1).
Proof.
  unfold YearFromDay.
  set (y0 := 1970 + 400 * d / 146097).
  assert (Hy : 146097 * (y0 - 1970) <= 400 * d < 146097 * (y0 - 1970) + 146097).
  { subst y0. Z.div_mod_to_equations. lia. }
  clearbody y0.
  assert (Hlo : DayFromYear (y0 - 1) <= d).
  { unfold DayFromYear. Z.div_mod_to_equations. lia. }
  assert (Hhi : d < DayFromYear (y0 + 2)).
  { unfold DayFromYear. Z.div_mod_to_equations. lia. }
  destruct (d <? DayFromYear y0) eqn:E1.
  - apply Z.ltb_lt in E1. replace (y0 - 1 + 1) with y0 by lia. lia.
  - apply Z.ltb_ge in E1.
    destruct (DayFromYear (y0 + 1) <=? d) eqn:E2.
    + apply Z.leb_le in E2. replace (y0 + 1 + 1) with (y0 + 2) by lia. lia.
    + apply Z.leb_gt in E2. lia.
Qed.

End CalendarFacts.

Example format_17532 : format 17532 = "2018-01-01".
Proof. reflexivity. Qed.

Example parseISO_2018 : parseISO "2018-12-31" = Some 17896 /\ parseISO "2018" = Some 17532.
Proof. split; reflexivity. Qed.

Example parseISO_leap : parseISO "2019-02-29" = None /\ parseISO "2020-02-29" = Some 18321.
Proof. split; reflexivity. Qed.

Example subYears_leap_day : format (subYears 18321 1) = "2019-02-28".
Proof. reflexivity. Qed.

Example toString_examples : toString 2018 = "2018" /\ toString 0 = "0" /\ toString (-5) = "-5".
Proof. repeat split; reflexivity. Qed.

Section DigitFacts.

Lemma digitVal_digitChar (k : Z) : 0 <= k < 10 -> digitVal (digitChar k) = Some k.
Proof.
  intros Hk.
  assert (Hc : k = 0 \/ k = 1 \/ k = 2 \/ k = 3 \/ k = 4 \/ k = 5 \/ k = 6
               \/ k = 7 \/ k = 8 \/ k = 9) by lia.
  repeat (destruct Hc as [-> | Hc]; [reflexivity |]). subst k. reflexivity.
Qed.

Lemma digitsFuel_ge (n : Z) : 8 <= n -> exists f, digitsFuel n = S (S (S (S f))).
Proof.
  intros Hn. unfold digitsFuel.
  assert (H3 : 3 <= Z.log2 n).
  { change 3 with (Z.log2 8). apply Z.log2_le_mono. exact Hn. }
  exists (Z.to_nat (Z.log2 n) - 3)%nat. lia.
Qed.

Lemma natDigits_small (f : nat) (n : Z) (acc : string) :
  0 <= n < 10 -> natDigits (S f) n acc = String (digitChar n) acc.
Proof.
  intros Hn. simpl.
  replace (n / 10) with 0 by (Z.div_mod_to_equations; lia).
  replace (n mod 10) with n by (Z.div_mod_to_equations; lia).
  reflexivity.
Qed.

Lemma natDigits_step (f : nat) (n : Z) (acc : string) :
  10 <= n ->
  natDigits (S f) n acc = natDigits f (n / 10) (String (digitChar (n mod 10)) acc).
Proof.
  intros Hn. simpl.
  destruct (n / 10 =? 0) eqn:E; [| reflexivity].
  apply Z.eqb_eq in E. exfalso. Z.div_mod_to_equations. lia.
Qed.

Lemma toString_digit (n : Z) : 0 <= n < 10 -> toString n = String (digitChar n) "".
Proof.
  intros Hn. unfold toString.
  destruct (n <? 0) eqn:E; [apply Z.ltb_lt in E; lia |].
  unfold digitsFuel. apply natDigits_small. exact Hn.
Qed.

Lemma toString_2digits (n : Z) :
  10 <= n < 100 ->
  toString n = String (digitChar (n / 10)) (String (digitChar (n mod 10)) "").
Proof.
  intros Hn. unfold toString.
  destruct (n <? 0) eqn:E; [apply Z.ltb_lt in E; lia |].
  destruct (digitsFuel_ge n) as [f ->]; [lia |].
  rewrite natDigits_step by lia.
  rewrite natDigits_small by (Z.div_mod_to_equations; lia).
  reflexivity.
Qed.

Lemma toString_3digits (n : Z) :
  100 <= n < 1000 ->
  toString n = String (digitChar (n / 100))
                 (String (digitChar (n / 10 mod 10)) (String (digitChar (n mod 10)) "")).
Proof.
  intros Hn. unfold toString.
  destruct (n <? 0) eqn:E; [apply Z.ltb_lt in E; lia |].
  destruct (digitsFuel_ge n) as [f ->]; [lia |].
  rewrite natDigits_step by lia.
  rewrite natDigits_step by (Z.div_mod_to_equations; lia).
  rewrite natDigits_small by (Z.div_mod_to_equations; lia).
  replace (n / 10 / 10) with (n / 100) by (Z.div_mod_to_equations; lia).
  reflexivity.
Qed.

Lemma toString_4digits (n : Z) :
  1000 <= n < 10000 ->
  toString n = String (digitChar (n / 1000))
                 (String (digitChar (n / 100 mod 10))
                    (String (digitChar (n / 10 mod 10)) (String (digitChar (n mod 10)) ""))).
Proof.
  intros Hn. unfold toString.
  destruct (n <? 0) eqn:E; [apply Z.ltb_lt in E; lia |].
  destruct (digitsFuel_ge n) as [f ->]; [lia |].
  rewrite natDigits_step by lia.
  rewrite natDigits_step by (Z.div_mod_to_equations; lia).
  rewrite natDigits_step by (Z.div_mod_to_equations; lia).
  rewrite natDigits_small by (Z.div_mod_to_equations; lia).
  replace (n / 10 / 10 / 10) with (n / 1000) by (Z.div_mod_to_equations; lia).
  replace (n / 10 / 10) with (n / 100) by (Z.div_mod_to_equations; lia).
  reflexivity.
Qed.

Lemma addLeadingZeros_2 (n : Z) :
  0 <= n < 100 ->
  addLeadingZeros n 2 = String (digitChar (n / 10)) (String (digitChar (n mod 10)) "").
Proof.
  intros Hn. unfold addLeadingZeros.
  destruct (n <? 0) eqn:E; [apply Z.ltb_lt in E; lia |].
  rewrite Z.abs_eq by lia.
  destruct (Z_lt_le_dec n 10) as [H1 | H1].
  - rewrite toString_digit by lia.
    replace (n / 10) with 0 by (Z.div_mod_to_equations; lia).
    replace (n mod 10) with n by (Z.div_mod_to_equations; lia).
    reflexivity.
  - rewrite toString_2digits by lia. reflexivity.
Qed.

Lemma addLeadingZeros_4 (n : Z) :
  0 <= n < 10000 ->
  addLeadingZeros n 4 =
    String (digitChar (n / 1000))
      (String (digitChar (n / 100 mod 10))
         (String (digitChar (n / 10 mod 10)) (String (digitChar (n mod 10)) ""))).
Proof.
  intros Hn. unfold addLeadingZeros.
  destruct (n <? 0) eqn:E; [apply Z.ltb_lt in E; lia |].
  rewrite Z.abs_eq by lia.
  destruct (Z_lt_le_dec n 10) as [H1 | H1];
    [| destruct (Z_lt_le_dec n 100) as [H2 | H2];
       [| destruct (Z_lt_le_dec n 1000) as [H3 | H3]]].
  - rewrite toString_digit by lia.
    replace (n / 1000) with 0 by (Z.div_mod_to_equations; lia).
    replace (n / 100 mod 10) with 0 by (Z.div_mod_to_equations; lia).
    replace (n / 10 mod 10) with 0 by (Z.div_mod_to_equations; lia).
    replace (n mod 10) with n by (Z.div_mod_to_equations; lia).
    reflexivity.
  - rewrite toString_2digits by lia.
    replace (n / 1000) with 0 by (Z.div_mod_to_equations; lia).
    replace (n / 100 mod 10) with 0 by (Z.div_mod_to_equations; lia).
    replace (n / 10 mod 10) with (n / 10) by (Z.div_mod_to_equations; lia).
    reflexivity.
  - rewrite toString_3digits by lia.
    replace (n / 1000) with 0 by (Z.div_mod_to_equations; lia).
    replace (n / 100 mod 10) with (n / 100) by (Z.div_mod_to_equations; lia).
    reflexivity.
  - rewrite toString_4digits by lia. reflexivity.
Qed.

Lemma num2_digits (n : Z) :
  0 <= n < 100 -> num2 (digitChar (n / 10)) (digitChar (n mod 10)) = Some n.
Proof.
  intros Hn. unfold num2.
  rewrite !digitVal_digitChar by (Z.div_mod_to_equations; lia).
  f_equal. Z.div_mod_to_equations; lia.
Qed.

Lemma num4_digits (n : Z) :
  0 <= n < 10000 ->
  num4 (digitChar (n / 1000)) (digitChar (n / 100 mod 10))
       (digitChar (n / 10 mod 10)) (digitChar (n mod 10)) = Some n.
Proof.
  intros Hn. unfold num4, num2.
  rewrite !digitVal_digitChar by (Z.div_mod_to_equations; lia).
  f_equal. Z.div_mod_to_equations; lia.
Qed.

End DigitFacts.

Section CalendarRoundTrip.

Lemma DayFromYear_mono (y1 y2 : Z) : y1 <= y2 -> DayFromYear y1 <= DayFromYear y2.
Proof. intros H. unfold DayFromYear. Z.div_mod_to_equations. lia. Qed.

Lemma YearFromDay_unique (d y : Z) :
  DayFromYear y <= d < DayFromYear (y + 1) -> YearFromDay d = y.
Proof.
  intros Hy. pose proof (YearFromDay_spec d) as Hs.
  destruct (Z_lt_le_dec (YearFromDay d) y) as [Hlt | Hge].
  - pose proof (DayFromYear_mono (YearFromDay d + 1) y ltac:(lia)). lia.
  - destruct (Z_lt_le_dec y (YearFromDay d)) as [Hlt | Hle]; [| lia].
    pose proof (DayFromYear_mono (y + 1) (YearFromDay d) ltac:(lia)). lia.
Qed.

Lemma YearFromDay_DayFromYear (y k : Z) :
  0 <= k < DaysInYear y -> YearFromDay (DayFromYear y + k) = y.
Proof.
  intros Hk. apply YearFromDay_unique. rewrite DayFromYear_succ. lia.
Qed.

Lemma DaysInYear_bounds (y : Z) : 365 <= DaysInYear y <= 366.
Proof. unfold DaysInYear. destruct (InLeapYear y); lia. Qed.

Lemma DayWithinYear_bounds (d : Z) : 0 <= DayWithinYear d < DaysInYear (YearFromDay d).
Proof.
  unfold DayWithinYear. pose proof (YearFromDay_spec d) as Hs.
  rewrite DayFromYear_succ in Hs. lia.
Qed.

Lemma YearFromDay_range (lo hi d : Z) :
  DayFromYear lo <= d < DayFromYear hi -> lo <= YearFromDay d < hi.
Proof.
  intros Hd. pose proof (YearFromDay_spec d) as Hs. split.
  - destruct (Z_lt_le_dec (YearFromDay d) lo) as [Hlt | ?]; [| lia].
    pose proof (DayFromYear_mono (YearFromDay d + 1) lo ltac:(lia)). lia.
  - destruct (Z_lt_le_dec (YearFromDay d) hi) as [? | Hge]; [lia |].
    pose proof (DayFromYear_mono hi (YearFromDay d) ltac:(lia)). lia.
Qed.


(** The calendar fields of a day: month and date are in range and
    [MakeDay] puts them together again. *)
Lemma calendar_fields (d : Z) :
  0 <= MonthFromDay d <= 11
  /\ 1 <= DateFromDay d <= daysInMonth (YearFromDay d) (MonthFromDay d)
  /\ MakeDay (YearFromDay d) (MonthFromDay d) (DateFromDay d) = d.
Proof.
  pose proof (DayWithinYear_bounds d) as Hw.
  unfold MakeDay, daysInMonth, DateFromDay, MonthFromDay.
  unfold DaysInYear in Hw.
  set (w := DayWithinYear d) in *.
  assert (Hd : d = DayFromYear (YearFromDay d) + w) by (subst w; unfold DayWithinYear; lia).
  set (y := YearFromDay d) in *. clearbody w y.
  destruct (InLeapYear y) eqn:El;
    repeat match goal with
           | |- context [if ?a <? monthStart ?l ?m then _ else _] =>
               let v := eval vm_compute in (monthStart l m) in
               change (monthStart l m) with v;
               let E := fresh "E" in
               destruct (a <? v) eqn:E;
               [apply Z.ltb_lt in E | apply Z.ltb_ge in E]
           end;
    try lia;
    repeat match goal with
           | |- context [?a / 12] =>
               let v := eval vm_compute in (a / 12) in change (a / 12) with v
           | |- context [?a mod 12] =>
               let v := eval vm_compute in (a mod 12) in change (a mod 12) with v
           end;
    rewrite ?Z.add_0_r, ?El;
    repeat match goal with
           | |- context [monthStart ?l ?m] =>
               let v := eval vm_compute in (monthStart l m) in
               change (monthStart l m) with v
           end;
    lia.
Qed.

End CalendarRoundTrip.

Section DateStringFacts.

Lemma format_digits (d : Z) :
  inIsoRange d ->
  format d =
    let y := YearFromDay d in
    let m := MonthFromDay d + 1 in
    let t := DateFromDay d in
    String (digitChar (y / 1000)) (String (digitChar (y / 100 mod 10))
      (String (digitChar (y / 10 mod 10)) (String (digitChar (y mod 10))
        (String "-" (String (digitChar (m / 10)) (String (digitChar (m mod 10))
          (String "-" (String (digitChar (t / 10)) (String (digitChar (t mod 10)) ""))))))))).
Proof.
  intros Hd. unfold format, getFullYear, getMonth.
  pose proof (YearFromDay_range 1 10000 d Hd) as Hy.
  destruct (calendar_fields d) as (Hm & Ht & _).
  assert (Hdim : daysInMonth (YearFromDay d) (MonthFromDay d) <= 31).
  { unfold daysInMonth.
    assert (Hc : MonthFromDay d = 0 \/ MonthFromDay d = 1 \/ MonthFromDay d = 2
                 \/ MonthFromDay d = 3 \/ MonthFromDay d = 4 \/ MonthFromDay d = 5
                 \/ MonthFromDay d = 6 \/ MonthFromDay d = 7 \/ MonthFromDay d = 8
                 \/ MonthFromDay d = 9 \/ MonthFromDay d = 10 \/ MonthFromDay d = 11)
      by lia.
    destruct (InLeapYear (YearFromDay d));
      repeat (destruct Hc as [-> | Hc]; [vm_compute; discriminate |]);
      rewrite Hc; vm_compute; discriminate. }
  destruct (0 <? YearFromDay d) eqn:E; [| apply Z.ltb_ge in E; lia].
  rewrite addLeadingZeros_4 by lia.
  rewrite !addLeadingZeros_2 by lia.
  reflexivity.
Qed.

Lemma daysInMonth_le_31 (y m : Z) : 0 <= m <= 11 -> daysInMonth y m <= 31.
Proof.
  intros Hm. unfold daysInMonth.
  assert (Hc : m = 0 \/ m = 1 \/ m = 2 \/ m = 3 \/ m = 4 \/ m = 5
               \/ m = 6 \/ m = 7 \/ m = 8 \/ m = 9 \/ m = 10 \/ m = 11) by lia.
  destruct (InLeapYear y);
    repeat (destruct Hc as [-> | Hc]; [vm_compute; discriminate |]);
    rewrite Hc; vm_compute; discriminate.
Qed.

(** Four digits at the head of a string are its year. *)
Lemma parseYear_4digits (a b c d : ascii) (rest : list ascii) (year : Z) :
  num4 a b c d = Some year -> parseYear (a :: b :: c :: d :: rest) = Some (year, rest).
Proof. intros H. unfold parseYear. rewrite H. reflexivity. Qed.

(** [-MM-DD] after the year. *)
Lemma parseDate_month_date (a b c d : ascii) (year month date : Z) :
  num2 a b = Some month -> num2 c d = Some date ->
  validateDate year (month - 1) date = true ->
  parseDate ["-"; a; b; "-"; c; d]%char year = Some (MakeDay year (month - 1) date).
Proof.
  intros Hm Hd Hv. unfold parseDate.
  change (Ascii.eqb "-" "-") with true. cbv beta iota zeta.
  rewrite Hm, Hd, Hv. reflexivity.
Qed.

Lemma parseISO_format (d : Z) : inIsoRange d -> parseISO (format d) = Some d.
Proof.
  intros Hd. rewrite format_digits by exact Hd.
  pose proof (YearFromDay_range 1 10000 d Hd) as Hy.
  destruct (calendar_fields d) as (Hm & Ht & Hmk).
  pose proof (daysInMonth_le_31 (YearFromDay d) (MonthFromDay d) Hm) as Hdim.
  cbv zeta. unfold parseISO. cbn [list_ascii_of_string].
  rewrite (parseYear_4digits _ _ _ _ _ (YearFromDay d)) by (apply num4_digits; lia).
  rewrite (parseDate_month_date _ _ _ _ _ (MonthFromDay d + 1) (DateFromDay d)).
  - replace (MonthFromDay d + 1 - 1) with (MonthFromDay d) by lia.
    rewrite Hmk. reflexivity.
  - apply num2_digits. lia.
  - apply num2_digits. lia.
  - replace (MonthFromDay d + 1 - 1) with (MonthFromDay d) by lia.
    unfold validateDate.
    destruct (0 <=? MonthFromDay d) eqn:E1; [| apply Z.leb_gt in E1; lia].
    destruct (MonthFromDay d <=? 11) eqn:E2; [| apply Z.leb_gt in E2; lia].
    destruct (1 <=? DateFromDay d) eqn:E3; [| apply Z.leb_gt in E3; lia].
    destruct (DateFromDay d <=? daysInMonth (YearFromDay d) (MonthFromDay d)) eqn:E4;
      [| apply Z.leb_gt in E4; lia].
    reflexivity.
Qed.

Lemma MakeDay_in_year (y m t : Z) :
  0 <= m <= 11 -> MakeDay y m t = DayFromYear y + monthStart (InLeapYear y) m + t - 1.
Proof.
  intros Hm. unfold MakeDay.
  replace (m / 12) with 0 by (Z.div_mod_to_equations; lia).
  replace (m mod 12) with m by (Z.div_mod_to_equations; lia).
  rewrite Z.add_0_r. reflexivity.
Qed.

(** [parseISO(`${year}-01-01`)], [parseISO(`${year}-12-31`)] and
    [parseISO(String(year))] for a year written with four digits. *)
Lemma parseISO_year_start (year : Z) :
  1000 <= year <= 9999 -> parseISO (toString year +:+ "-01-01") = Some (DayFromYear year).
Proof.
  intros Hy. rewrite toString_4digits by lia.
  cbv [String.append]. unfold parseISO. cbn [list_ascii_of_string].
  rewrite (parseYear_4digits _ _ _ _ _ year) by (apply num4_digits; lia).
  rewrite (parseDate_month_date _ _ _ _ _ 1 1).
  - f_equal. rewrite MakeDay_in_year by lia.
    destruct (InLeapYear year); vm_compute (monthStart _ _); lia.
  - reflexivity.
  - reflexivity.
  - unfold validateDate, daysInMonth; destruct (InLeapYear year); reflexivity.
Qed.

Lemma parseISO_year_end (year : Z) :
  1000 <= year <= 9999 ->
  parseISO (toString year +:+ "-12-31") = Some (DayFromYear year + DaysInYear year - 1).
Proof.
  intros Hy. rewrite toString_4digits by lia.
  cbv [String.append]. unfold parseISO. cbn [list_ascii_of_string].
  rewrite (parseYear_4digits _ _ _ _ _ year) by (apply num4_digits; lia).
  rewrite (parseDate_month_date _ _ _ _ _ 12 31).
  - f_equal. rewrite MakeDay_in_year by lia. unfold DaysInYear.
    destruct (InLeapYear year); vm_compute (monthStart _ _); lia.
  - reflexivity.
  - reflexivity.
  - unfold validateDate, daysInMonth; destruct (InLeapYear year); reflexivity.
Qed.

Lemma parseISO_year_only (year : Z) :
  1000 <= year <= 9999 -> parseISO (toString year) = Some (DayFromYear year).
Proof.
  intros Hy. rewrite toString_4digits by lia.
  unfold parseISO. cbn [list_ascii_of_string].
  rewrite (parseYear_4digits _ _ _ _ _ year) by (apply num4_digits; lia).
  unfold parseDate. cbv beta iota zeta.
  f_equal. rewrite MakeDay_in_year by lia.
  destruct (InLeapYear year); vm_compute (monthStart _ _); lia.
Qed.

(** [new Date(string)] on a formatted day is the UTC midnight of that
    day. *)
Lemma utcDayOfString_format (d : Z) : inIsoRange d -> utcDayOfString (format d) = Some d.
Proof.
  intros Hd. rewrite format_digits by exact Hd.
  pose proof (YearFromDay_range 1 10000 d Hd) as Hy.
  destruct (calendar_fields d) as (Hm & Ht & Hmk).
  pose proof (daysInMonth_le_31 (YearFromDay d) (MonthFromDay d) Hm) as Hdim.
  cbv zeta. unfold utcDayOfString. cbn [list_ascii_of_string].
  change (Ascii.eqb "-" "-") with true. cbn [andb].
  rewrite num4_digits by lia. rewrite !num2_digits by lia.
  destruct (1 <=? MonthFromDay d + 1) eqn:E1; [| apply Z.leb_gt in E1; lia].
  destruct (MonthFromDay d + 1 <=? 12) eqn:E2; [| apply Z.leb_gt in E2; lia].
  destruct (1 <=? DateFromDay d) eqn:E3; [| apply Z.leb_gt in E3; lia].
  destruct (DateFromDay d <=? 31) eqn:E4; [| apply Z.leb_gt in E4; lia].
  cbn [andb]. replace (MonthFromDay d + 1 - 1) with (MonthFromDay d) by lia.
  rewrite Hmk. reflexivity.
Qed.

(** In a zone at most a day ahead of UTC and not behind it, the UTC
    midnight of a day lies on that day. *)
Lemma localDayOfUtcMidnight_ahead (zone : Z -> Z) (d : Z) :
  -1440 < zone d <= 0 -> localDayOfUtcMidnight zone d = d.
Proof.
  intros Hz. unfold localDayOfUtcMidnight.
  replace (- zone d / 1440) with 0 by (Z.div_mod_to_equations; lia). lia.
Qed.

Lemma fullYearString_format (zone : Z -> Z) (d : Z) :
  inIsoRange d -> -1440 < zone d <= 0 ->
  fullYearString zone (format d) = toString (getFullYear d).
Proof.
  intros Hd Hz. unfold fullYearString.
  rewrite utcDayOfString_format by exact Hd.
  rewrite localDayOfUtcMidnight_ahead by exact Hz. reflexivity.
Qed.

End DateStringFacts.

(** ** The merger: [combineContributions] *)

Section Merger.

Variable zone : Z -> Z.
Variable gitlabContributions : gmap string Z.
Variable t : gmap Z Shade.t.

(** The record the second pass returns does not depend on the map
    [years]. *)
Lemma addGitlab_record (c : Contribution.t) (ys ys' : gmap string Z) :
  (addGitlab zone gitlabContributions t c ys).1 = (addGitlab zone gitlabContributions t c ys').1.
Proof.
  unfold addGitlab.
  destruct (gitlabContributions !! Contribution.date c); [| reflexivity].
  destruct (t !! (Contribution.count c + z)); reflexivity.
Qed.

Lemma secondPass_records (cs : list Contribution.t) (ys : gmap string Z) :
  (secondPass zone gitlabContributions t cs ys).1
  = map (fun c => (addGitlab zone gitlabContributions t c ∅).1) cs.
Proof.
  revert ys. induction cs as [| c cs IH]; intros ys; [reflexivity |].
  cbn [secondPass map].
  destruct (addGitlab zone gitlabContributions t c ys) as [c1 ys1] eqn:E1.
  specialize (IH ys1).
  destruct (secondPass zone gitlabContributions t cs ys1) as [cs2 ys2] eqn:E2.
  cbn [fst] in *. rewrite IH. f_equal.
  rewrite (addGitlab_record c ∅ ys), E1. reflexivity.
Qed.

Lemma addGitlab_tally (c : Contribution.t) (ys : gmap string Z) (y : string) :
  tally (addGitlab zone gitlabContributions t c ys).2 y
  = tally ys y
    + (if decide (is_Some (gitlabContributions !! Contribution.date c)
                  /\ fullYearString zone (Contribution.date c) = y)
       then 1 else 0).
Proof.
  unfold addGitlab, tally.
  destruct (gitlabContributions !! Contribution.date c) as [g |] eqn:Eg.
  - assert (Hy : (default 0
                   (match ys !! fullYearString zone (Contribution.date c) with
                    | Some n => <[fullYearString zone (Contribution.date c) := n + 1]> ys
                    | None => <[fullYearString zone (Contribution.date c) := 1]> ys
                    end !! y))
                 = default 0 (ys !! y)
                   + (if decide (fullYearString zone (Contribution.date c) = y)
                      then 1 else 0)).
    { destruct (decide (fullYearString zone (Contribution.date c) = y)) as [-> | Hne].
      - destruct (ys !! y) as [n |] eqn:En; rewrite lookup_insert_eq; cbn; lia.
      - destruct (ys !! fullYearString zone (Contribution.date c));
          rewrite lookup_insert_ne by exact Hne; lia. }
    destruct (t !! (Contribution.count c + g)); cbn [snd]; rewrite Hy;
      destruct (decide (fullYearString zone (Contribution.date c) = y)) as [He | He];
      destruct (decide (is_Some (Some g) /\ fullYearString zone (Contribution.date c) = y))
        as [Hd | Hd]; try reflexivity;
      try (exfalso; apply Hd; split; [eexists; reflexivity | exact He]);
      destruct Hd as [_ Hd]; contradiction.
  - cbn [snd].
    destruct (decide (is_Some (@None Z) /\ fullYearString zone (Contribution.date c) = y))
      as [[[? Hd] _] | _]; [discriminate | lia].
Qed.

Lemma secondPass_tally (cs : list Contribution.t) (ys : gmap string Z) (y : string) :
  tally (secondPass zone gitlabContributions t cs ys).2 y
  = tally ys y
    + Z.of_nat (length (filter
                  (fun d => is_Some (gitlabContributions !! d) /\ fullYearString zone d = y)
                  (map Contribution.date cs))).
Proof.
  revert ys. induction cs as [| c cs IH]; intros ys.
  - cbn. lia.
  - cbn [secondPass map].
    pose proof (addGitlab_tally c ys y) as Ha.
    destruct (addGitlab zone gitlabContributions t c ys) as [c1 ys1] eqn:E1.
    specialize (IH ys1).
    destruct (secondPass zone gitlabContributions t cs ys1) as [cs2 ys2] eqn:E2.
    cbn [snd] in *. rewrite IH, Ha. rewrite filter_cons.
    destruct (decide (is_Some (gitlabContributions !! Contribution.date c)
                      /\ fullYearString zone (Contribution.date c) = y));
      cbn [length]; lia.
Qed.

End Merger.

Section ColorTable.

Lemma colorTable_acc (cs : list Contribution.t) (acc : gmap Z Shade.t) (k : Z) :
  fold_left
    (fun t contribution =>
       <[Contribution.count contribution :=
           Shade.mk (Contribution.color contribution)
                    (Contribution.intensity contribution)]> t)
    cs acc !! k = None
  <-> acc !! k = None /\ Forall (fun c => Contribution.count c <> k) cs.
Proof.
  revert acc. induction cs as [| c cs IH]; intros acc; cbn [fold_left].
  - split; [intros H; split; [exact H | constructor] | intros [H _]; exact H].
  - rewrite IH, lookup_insert_None, Forall_cons. tauto.
Qed.

(** The table has no entry for a count that no primary record has. *)
Lemma colorTable_None (cs : list Contribution.t) (k : Z) :
  colorTable cs !! k = None <-> Forall (fun c => Contribution.count c <> k) cs.
Proof.
  unfold colorTable. rewrite colorTable_acc, lookup_empty. tauto.
Qed.

End ColorTable.

Section Combine.

Variable zone : Z -> Z.
Variable gitlabContributions : gmap string Z.
Variable githubContributions : ApiResult.t.

Lemma combineContributions_contributions :
  ApiResult.contributions (combineContributions zone gitlabContributions githubContributions)
  = map (fun c =>
           (addGitlab zone gitlabContributions
              (colorTable (ApiResult.contributions githubContributions)) c ∅).1)
        (ApiResult.contributions githubContributions).
Proof.
  unfold combineContributions.
  rewrite <- (secondPass_records zone gitlabContributions _ _ ∅).
  destruct (secondPass _ _ _ _) as [cs ys]. reflexivity.
Qed.

Lemma combineContributions_years :
  ApiResult.years (combineContributions zone gitlabContributions githubContributions)
  = map (fun y =>
           YearEntry.mk (YearEntry.year y)
             (YearEntry.total y
              + Z.of_nat (length (touchedDates zone gitlabContributions githubContributions
                                    (YearEntry.year y))))
             (YearEntry.range y))
        (ApiResult.years githubContributions).
Proof.
  unfold combineContributions, touchedDates.
  pose proof (secondPass_tally zone gitlabContributions
                (colorTable (ApiResult.contributions githubContributions))
                (ApiResult.contributions githubContributions) ∅) as Ht.
  destruct (secondPass _ _ _ _) as [cs ys]. cbn [snd ApiResult.years] in *.
  apply map_ext. intros y. f_equal.
  specialize (Ht (YearEntry.year y)). unfold tally in Ht.
  rewrite lookup_empty in Ht. cbn [default] in Ht.
  destruct (ys !! YearEntry.year y); cbn [default from_option id] in Ht; lia.
Qed.

End Combine.

Section MergerClaims.

Example june_merged :
  combineContributions utc juneGitlab june
  = ApiResult.mk
      [YearEntry.mk "2023" 9 (Range.mk "2023-01-01" "2023-12-31")]
      [Contribution.mk "2023-06-01" 7 "red" (Some 2);
       Contribution.mk "2023-06-02" 3 "#c6e48b" (Some 1)].
Proof. vm_compute. reflexivity. Qed.

Example june_merged_known_count :
  ApiResult.contributions (combineContributions utc juneGitlab3 june)
  = [Contribution.mk "2023-06-01" 5 "#7bc96f" (Some 2);
     Contribution.mk "2023-06-02" 5 "#7bc96f" (Some 2)].
Proof. vm_compute. reflexivity. Qed.

(** C6: the merged series is as long as the primary one; a record whose date
    the secondary map has keeps its date and gets the count
    primaryCount + secondaryCount; a record whose date the secondary map
    lacks is passed through unchanged. *)
Theorem C6_merger_invariant (zone : Z -> Z) (gitlabContributions : gmap string Z)
  (githubContributions : ApiResult.t) :
  let out :=
    ApiResult.contributions (combineContributions zone gitlabContributions githubContributions) in
  length out = length (ApiResult.contributions githubContributions)
  /\ Forall2
       (fun c c' =>
          match gitlabContributions !! Contribution.date c with
          | Some g =>
              Contribution.date c' = Contribution.date c
              /\ Contribution.count c' = Contribution.count c + g
          | None => c' = c
          end)
       (ApiResult.contributions githubContributions) out.
Proof.
  cbv zeta. rewrite combineContributions_contributions. split.
  - apply length_map.
  - induction (ApiResult.contributions githubContributions) as [| c cs IH] at 1 3;
      cbn [map]; constructor; [| exact IH].
    unfold addGitlab.
    destruct (gitlabContributions !! Contribution.date c) as [g |]; [| reflexivity].
    destruct (colorTable _ !! _); cbn; split; reflexivity.
Qed.

(** C7, at an input where the code departs from it. In a time zone five
    hours behind UTC the record dated 2023-01-01, a day of the calendar
    year 2023 that both sources have, is filed under 2022: the summary of
    2023 keeps its total 5, where one touched date of that year makes it 6,
    and the summary of 2022, a year with no touched date, goes from 9 to
    10. *)
Theorem C7_new_year_day_behind_utc :
  map Contribution.date (ApiResult.contributions newYear) = [format (DayFromYear 2023)]
  /\ length (touchedDaysOfYear newYearGitlab [DayFromYear 2023] 2023) = 1%nat
  /\ length (touchedDaysOfYear newYearGitlab [DayFromYear 2023] 2022) = 0%nat
  /\ fullYearString fiveHoursBehind "2023-01-01" = "2022"
  /\ ApiResult.years (combineContributions fiveHoursBehind newYearGitlab newYear)
     = [YearEntry.mk "2023" 5 (Range.mk "2023-01-01" "2023-12-31");
        YearEntry.mk "2022" 10 (Range.mk "2022-01-01" "2022-12-31")].
Proof. repeat split; vm_compute; reflexivity. Qed.

(** With unique dates in the primary series the touched dates are counted
    once each. *)
Lemma touchedDates_NoDup (zone : Z -> Z) (gitlabContributions : gmap string Z)
  (githubContributions : ApiResult.t) (year : string) :
  NoDup (map Contribution.date (ApiResult.contributions githubContributions)) ->
  NoDup (touchedDates zone gitlabContributions githubContributions year).
Proof. intros H. unfold touchedDates. apply NoDup_filter. exact H. Qed.

(** C3, as the code has it: a merged count that no primary record has gives
    the colour "red" and leaves the record its own intensity. *)
Theorem C3_overflow_marker (zone : Z -> Z) (gitlabContributions : gmap string Z)
  (githubContributions : ApiResult.t) (i : nat) (c : Contribution.t) (g : Z) :
  ApiResult.contributions githubContributions !! i = Some c ->
  gitlabContributions !! Contribution.date c = Some g ->
  Forall (fun c0 => Contribution.count c0 <> Contribution.count c + g)
         (ApiResult.contributions githubContributions) ->
  ApiResult.contributions (combineContributions zone gitlabContributions githubContributions) !! i
  = Some (Contribution.mk (Contribution.date c) (Contribution.count c + g) "red"
            (Contribution.intensity c)).
Proof.
  intros Hi Hg Hnone.
  rewrite combineContributions_contributions.
  change (map ?f ?l) with (f <$> l). rewrite list_lookup_fmap, Hi. cbn [fmap option_fmap option_map].
  f_equal. unfold addGitlab. rewrite Hg.
  apply colorTable_None in Hnone. rewrite Hnone. reflexivity.
Qed.

Lemma C3_overflow_marker_witness :
  ApiResult.contributions (combineContributions utc juneGitlab june) !! 0%nat
  = Some (Contribution.mk "2023-06-01" (5 + 2) "red" (Some 2)).
Proof.
  apply (C3_overflow_marker utc juneGitlab june 0
           (Contribution.mk "2023-06-01" 5 "#7bc96f" (Some 2)) 2).
  - reflexivity.
  - vm_compute. reflexivity.
  - repeat constructor; cbn; lia.
Defined.

(** C3 as stated fails: the merged count 7 is no primary count, and the
    record keeps the intensity 2. *)
Lemma C3_intensity_is_kept :
  Forall (fun c0 => Contribution.count c0 <> 5 + 2) (ApiResult.contributions june)
  /\ juneGitlab !! "2023-06-01" = Some 2
  /\ ApiResult.contributions june !! 0%nat
     = Some (Contribution.mk "2023-06-01" 5 "#7bc96f" (Some 2))
  /\ exists c',
       ApiResult.contributions (combineContributions utc juneGitlab june) !! 0%nat = Some c'
       /\ Contribution.color c' = "red"
       /\ Contribution.intensity c' = Some 2
       /\ Contribution.intensity c' <> None.
Proof.
  split; [repeat constructor; cbn; lia |].
  split; [vm_compute; reflexivity |].
  split; [reflexivity |].
  exists (Contribution.mk "2023-06-01" 7 "red" (Some 2)).
  split; [vm_compute; reflexivity |].
  repeat split; cbn; congruence.
Qed.

End MergerClaims.

(** ** Yearly totals: [getContributionCountForLastYear] *)

Section Totals.

Lemma findIndex_Some {A : Type} (p : A -> bool) (l : list A) (i : nat) :
  findIndex p l = Some i -> exists a, l !! i = Some a /\ p a = true.
Proof.
  revert i. induction l as [| a l IH]; intros i; cbn [findIndex]; [discriminate |].
  destruct (p a) eqn:Ep.
  - intros [= <-]. exists a. split; [reflexivity | exact Ep].
  - destruct (findIndex p l) as [j |]; cbn [option_map]; [| discriminate].
    intros [= <-]. destruct (IH j eq_refl) as (b & Hb & Hp). exists b. split; assumption.
Qed.

Lemma fold_left_counts (l : list Contribution.t) (acc : Z) :
  fold_left (fun acc contrib => acc + Contribution.count contrib) l acc
  = acc + sumCounts l.
Proof.
  revert acc. induction l as [| c l IH]; intros acc; cbn [fold_left sumCounts foldr].
  - lia.
  - rewrite IH. unfold sumCounts. lia.
Qed.

Lemma slice_length {A : Type} (l : list A) (b e : nat) :
  (e <= length l)%nat -> length (slice l b e) = (e - b)%nat.
Proof. intros He. unfold slice. rewrite length_take, length_drop. lia. Qed.

Lemma slice_cons {A : Type} (l : list A) (b e : nat) (a : A) :
  l !! b = Some a -> (b < e)%nat -> slice l b e = a :: slice l (S b) e.
Proof.
  intros Hb Hlt. unfold slice.
  rewrite (drop_S l a b Hb).
  replace (e - b)%nat with (S (e - S b)) by lia. reflexivity.
Qed.

(** C2, as the code has it: without a record dated today the total is 0;
    otherwise it is the sum of the counts from today's index up to, and
    without, the index of the record dated one year earlier, or the last
    index when there is no such record. The slice holds the records at the
    indices from today's on, and today's record is the first summand when
    the slice is not empty. *)
Theorem C2_rolling_total (now : Z) (data : ApiResult.t) :
  let cs := ApiResult.contributions data in
  let today :=
    findIndex (fun contrib => String.eqb (Contribution.date contrib) (format now)) cs in
  let yearAgo :=
    findIndex (fun contrib =>
                 String.eqb (Contribution.date contrib) (format (subYears now 1))) cs in
  match today with
  | None => getContributionCountForLastYear now data = 0
  | Some b =>
      let e := default (length cs - 1)%nat yearAgo in
      getContributionCountForLastYear now data = sumCounts (slice cs b e)
      /\ length (slice cs b e) = (e - b)%nat
      /\ (forall i, (i < e - b)%nat -> slice cs b e !! i = cs !! (b + i)%nat)
      /\ ((b < e)%nat ->
          exists c, cs !! b = Some c
                    /\ Contribution.date c = format now
                    /\ slice cs b e = c :: slice cs (S b) e)
  end.
Proof.
  cbv zeta. unfold getContributionCountForLastYear.
  destruct (findIndex _ (ApiResult.contributions data)) as [b |] eqn:Eb; [| reflexivity].
  destruct (findIndex_Some _ _ _ Eb) as (c & Hc & Hp).
  apply String.eqb_eq in Hp.
  set (e := default _ _).
  assert (He : (e <= length (ApiResult.contributions data))%nat).
  { subst e.
    destruct (findIndex (fun contrib => String.eqb (Contribution.date contrib)
                                          (format (subYears now 1))) _) as [j |] eqn:Ej;
      cbn [default from_option id].
    - destruct (findIndex_Some _ _ _ Ej) as (a & Ha & _).
      apply lookup_lt_Some in Ha. unfold id. lia.
    - lia. }
  split; [| split; [| split]].
  - rewrite <- (Z.add_0_l (sumCounts _)), <- fold_left_counts.
    subst e. destruct (findIndex _ _); reflexivity.
  - apply slice_length. exact He.
  - intros i Hi. unfold slice. rewrite lookup_take_lt by exact Hi.
    apply lookup_drop.
  - intros Hlt. exists c. repeat split; [exact Hc | exact Hp |].
    apply slice_cons; assumption.
Qed.

(** C2 as stated fails. In a series delivered newest first the code sums
    today's 5 and yesterday's 3, while the slice from the index of the
    record of one year ago to today's index is empty; in the same series
    oldest first that slice sums to 10 and the code returns 0. *)
Lemma C2_slice_runs_from_today :
  (findIndex (fun contrib => String.eqb (Contribution.date contrib) (format dec9))
             (ApiResult.contributions newestFirst) = Some 0%nat
   /\ findIndex (fun contrib =>
                   String.eqb (Contribution.date contrib) (format (subYears dec9 1)))
                (ApiResult.contributions newestFirst) = Some 2%nat
   /\ getContributionCountForLastYear dec9 newestFirst = 8
   /\ sumCounts (slice (ApiResult.contributions newestFirst) 2 0) = 0)
  /\ (findIndex (fun contrib => String.eqb (Contribution.date contrib) (format dec9))
                (ApiResult.contributions oldestFirst) = Some 2%nat
      /\ findIndex (fun contrib =>
                      String.eqb (Contribution.date contrib) (format (subYears dec9 1)))
                   (ApiResult.contributions oldestFirst) = Some 0%nat
      /\ getContributionCountForLastYear dec9 oldestFirst = 0
      /\ sumCounts (slice (ApiResult.contributions oldestFirst) 0 2) = 10).
Proof.
  split; repeat split; vm_compute; reflexivity.
Qed.

End Totals.

(** ** The orchestrator: [getGitHubGraphData] *)

Section Orchestrator.

Lemma mapM_Throw {A B : Type} (f : A -> result B) (l : list A) (e : exn) :
  mapM f l = Throw e -> exists a, In a l /\ f a = Throw e.
Proof.
  induction l as [| a l IH]; cbn [mapM]; [discriminate |].
  destruct (f a) as [b | e'] eqn:Ef; cbn.
  - destruct (mapM f l) as [bs | e'']; cbn; [discriminate |].
    intros [= ->]. destruct (IH eq_refl) as (a' & Hin & Ha').
    exists a'. split; [right; exact Hin | exact Ha'].
  - intros [= ->]. exists a. split; [left; reflexivity | exact Ef].
Qed.

Lemma getBlocksForYear_Throw (now year : Z) (data : ApiResult.t) (fullYear : bool)
  (e : exn) :
  getBlocksForYear now year data fullYear = Throw e -> e = invalidTime.
Proof.
  unfold getBlocksForYear.
  destruct (firstDateOf now year fullYear) as [firstDate |]; [| discriminate].
  destruct (lastDateOf now year fullYear) as [lastDate |]; [| discriminate].
  unfold blocksForWindow. intros H.
  apply mapM_Throw in H. destruct H as (b & _ & Hb).
  unfold weekColumn in Hb. destruct (parseISO (Block.date b)); congruence.
Qed.

Lemma monthLabelsLoop_Throw (weeks : Grid) (x : nat) (previousMonth : Z)
  (labels : MonthLabels) (e : exn) :
  monthLabelsLoop weeks x previousMonth labels = Throw e ->
  e = invalidTime \/ e = undefinedDate.
Proof.
  revert x previousMonth labels.
  induction weeks as [| week rest IH]; intros x previousMonth labels;
    cbn [monthLabelsLoop]; [discriminate |].
  destruct week as [| first ?]; [intros [= <-]; right; reflexivity |].
  destruct (parseISO (Block.date first)); [| intros [= <-]; left; reflexivity].
  destruct (_ && _); apply IH.
Qed.

Lemma getGraphDataForYear_Throw (now year : Z) (data : ApiResult.t) (fullYear : bool)
  (e : exn) :
  getGraphDataForYear now year data fullYear = Throw e ->
  e = invalidTime \/ e = undefinedDate.
Proof.
  unfold getGraphDataForYear.
  destruct (getBlocksForYear now year data fullYear) as [blocks | e'] eqn:Eb; cbn.
  - destruct (getMonthLabels blocks fullYear) as [labels | e''] eqn:El; cbn;
      [discriminate |].
    intros [= ->]. unfold getMonthLabels in El.
    apply monthLabelsLoop_Throw in El. exact El.
  - intros [= ->]. left. apply getBlocksForYear_Throw in Eb. exact Eb.
Qed.

(** C8: the request fails with the message "No data available" exactly when
    the merged series has no year summary, and then nothing else comes
    back. *)
Theorem C8_no_data_available (now : Z) (zone : Z -> Z) (options : RequestOptions.t)
  (githubData : ApiResult.t) (contributions : gmap string Z) :
  ((exists e,
      getGitHubGraphData now zone options githubData contributions = Throw e
      /\ message e = "No data available")
   <-> ApiResult.years (combineContributions zone contributions githubData) = [])
  /\ (ApiResult.years (combineContributions zone contributions githubData) = [] ->
      getGitHubGraphData now zone options githubData contributions
      = Throw (Error "No data available")).
Proof.
  unfold getGitHubGraphData.
  destruct (ApiResult.years (combineContributions zone contributions githubData))
    as [| y ys] eqn:Ey; cbn [length Nat.eqb].
  - split; [| reflexivity].
    split; [reflexivity |]. intros _. eexists. split; reflexivity.
  - split; [| discriminate].
    split; [| discriminate].
    intros (e & He & Hm). exfalso.
    apply mapM_Throw in He. destruct He as (year & _ & He).
    unfold graphDataForRequestedYear in He.
    apply getGraphDataForYear_Throw in He.
    destruct He as [-> | ->]; cbn in Hm; discriminate.
Qed.

Example no_years_no_data :
  getGitHubGraphData dec9 utc (RequestOptions.mk true None None [2023]) newestFirst juneGitlab
  = Throw (Error "No data available").
Proof. vm_compute. reflexivity. Qed.

Lemma isSameYear_requested (now year : Z) :
  1000 <= year <= 9999 ->
  isSameYear (parseISO (toString year)) now = (year =? getFullYear now).
Proof.
  intros Hy. rewrite parseISO_year_only by exact Hy.
  unfold isSameYear, getFullYear.
  replace (YearFromDay (DayFromYear year)) with year; [reflexivity |].
  symmetry. replace (DayFromYear year) with (DayFromYear year + 0) by lia.
  apply YearFromDay_DayFromYear. pose proof (DaysInYear_bounds year). lia.
Qed.




(** The same with a year of six digits, which [parseISO] reads as a year
    and a month: 202611 is November 2026. *)
Example year_202611_in_2026 :
  format nov2of2026 = "2026-11-02"
  /\ option_map format (parseISO (toString 202611)) = Some "2026-11-01"
  /\ graphDataForRequestedYear nov2of2026 false june 202611
     = Ok (GraphData.mk 202611 [] [] 0)
  /\ length (graphBlocks (graphDataForRequestedYear nov2of2026 true june 202611)) = 53%nat.
Proof. repeat split; vm_compute; reflexivity. Qed.

(** The same for a whole request none of whose years is the current one. *)
Lemma getGitHubGraphData_full_year_inert (now : Z) (zone : Z -> Z) (githubData : ApiResult.t)
  (contributions : gmap string Z) (user1 user2 : option string) (years : list Z) :
  Forall (fun year => 1000 <= year <= 9999 /\ year <> getFullYear now) years ->
  getGitHubGraphData now zone (RequestOptions.mk true user1 user2 years) githubData contributions
  = getGitHubGraphData now zone (RequestOptions.mk false user1 user2 years) githubData
      contributions.
Proof.
  intros Hall. unfold getGitHubGraphData. cbn [RequestOptions.fullYear RequestOptions.years].
  destruct (Nat.eqb _ 0); [reflexivity |].
  induction Hall as [| year years [Hy Hne] _ IH]; [reflexivity |].
  cbn [mapM]. unfold graphDataForRequestedYear in *.
  rewrite isSameYear_requested by exact Hy.
  destruct (year =? getFullYear now) eqn:E; [apply Z.eqb_eq in E; contradiction |].
  cbn [andb]. rewrite IH. reflexivity.
Qed.

End Orchestrator.

(** ** Month labels: [getMonthLabels] *)

Section MonthLabels.

Lemma slice_labelledWeeks (blocks : Grid) (fullYear : bool) :
  slice blocks 0 (if fullYear then length blocks - 1 else length blocks)%nat
  = labelledWeeks blocks fullYear.
Proof.
  unfold slice, labelledWeeks. rewrite drop_0, Nat.sub_0_r.
  destruct fullYear.
  - induction blocks as [| b [| b' bs] IH]; [reflexivity | reflexivity |].
    cbn [length] in *. replace (S (S (length bs)) - 1)%nat with (S (S (length bs) - 1)) by lia.
    cbn [take]. rewrite IH. reflexivity.
  - apply firstn_all.
Qed.

Lemma firstCellMonth_ge_1 (week : list Block.t) (m : Z) :
  firstCellMonth week = Some m -> 1 <= m <= 12.
Proof.
  unfold firstCellMonth. destruct week as [| first ?]; [discriminate |].
  destruct (parseISO (Block.date first)) as [d |]; cbn [option_map]; [| discriminate].
  intros [= <-]. unfold getMonth. pose proof (calendar_fields d) as [H _]. lia.
Qed.

(** One turn of the reducer on a column whose first cell is in month [m]. *)
Lemma monthLabelsLoop_step (week : list Block.t) (rest : Grid) (x : nat)
  (previousMonth : Z) (labels : MonthLabels) (m : Z) :
  firstCellMonth week = Some m ->
  monthLabelsLoop (week :: rest) x previousMonth labels
  = if negb (m =? previousMonth) && negb (Nat.eqb x 0 && (m =? 12))
    then monthLabelsLoop rest (S x) m (labels ++ [MonthLabel.mk x (monthName (m - 1))])%list
    else monthLabelsLoop rest (S x) previousMonth labels.
Proof.
  unfold firstCellMonth. cbn [monthLabelsLoop].
  destruct week as [| first ?]; [discriminate |].
  destruct (parseISO (Block.date first)) as [d |]; cbn [option_map]; [| discriminate].
  intros [= <-]. unfold formatMMM.
  replace (getMonth d + 1 - 1) with (getMonth d) by lia. reflexivity.
Qed.

Lemma monthLabelsLoop_tail (weeks : Grid) (months : list Z) (x : nat) (p : Z)
  (labels : MonthLabels) :
  Forall2 (fun week m => firstCellMonth week = Some m) weeks months ->
  monthLabelsLoop weeks (S x) p labels = Ok (labels ++ labelsFrom (S x) p months)%list.
Proof.
  intros H. revert x p labels.
  induction H as [| week m weeks months Hm _ IH]; intros x p labels.
  - cbn. rewrite app_nil_r. reflexivity.
  - rewrite (monthLabelsLoop_step _ _ _ _ _ _ Hm). cbn [Nat.eqb andb negb labelsFrom].
    rewrite andb_true_r.
    destruct (m =? p) eqn:E; cbn [negb].
    + apply Z.eqb_eq in E. subst p. rewrite IH. reflexivity.
    + rewrite IH, <- app_assoc. reflexivity.
Qed.

Lemma monthChangedAt_cons (q m : Z) (months : list Z) (j : nat) :
  monthChangedAt q (m :: months) (S j) = monthChangedAt m months j.
Proof.
  unfold monthChangedAt.
  change ((m :: months) !! S j) with (months !! j).
  destruct (months !! j) as [mj |]; [| reflexivity].
  destruct j as [| j']; reflexivity.
Qed.

Lemma filter_map_S (f g : nat -> bool) (l : list nat) :
  (forall j, f (S j) = g j) ->
  List.filter f (map S l) = map S (List.filter g l).
Proof.
  intros Hfg. induction l as [| j l IH]; [reflexivity |].
  cbn [map List.filter]. rewrite IH, Hfg. destruct (g j); reflexivity.
Qed.

Lemma labelsFrom_indices (x : nat) (q : Z) (months : list Z) :
  map MonthLabel.x (labelsFrom x q months)
  = map (fun j => (x + j)%nat)
        (List.filter (monthChangedAt q months) (seq 0 (length months))).
Proof.
  revert x q. induction months as [| m months IH]; intros x q; [reflexivity |].
  cbn [labelsFrom length seq]. rewrite map_app, IH.
  rewrite <- seq_shift. cbn [List.filter].
  rewrite (filter_map_S _ (monthChangedAt m months))
    by (intros j; apply monthChangedAt_cons).
  change (monthChangedAt q (m :: months) 0) with (negb (m =? q)).
  destruct (m =? q); cbn [negb map app]; rewrite map_map;
    [| rewrite Nat.add_0_r; f_equal]; apply map_ext; intros j; lia.
Qed.

Lemma labelsFrom_texts (x : nat) (q : Z) (months : list Z) :
  Forall (fun l => exists j m, MonthLabel.x l = (x + j)%nat /\ months !! j = Some m
                               /\ MonthLabel.label l = monthName (m - 1))
         (labelsFrom x q months).
Proof.
  revert x q. induction months as [| m months IH]; intros x q; [constructor |].
  cbn [labelsFrom]. apply Forall_app. split.
  - destruct (m =? q); constructor; [| constructor].
    exists 0%nat, m. cbn. repeat split. lia.
  - eapply Forall_impl; [apply IH |].
    intros l (j & mj & Hx & Hj & Hl). exists (S j), mj.
    repeat split; [lia | exact Hj | exact Hl].
Qed.

Lemma labelled_succ (m q : Z) (months : list Z) (j : nat) :
  Forall (fun mj => 1 <= mj) months ->
  q = (if m =? 12 then 0 else m) ->
  labelled (m :: months) (S j) = monthChangedAt q months j.
Proof.
  intros Hpos ->. unfold labelled, monthChangedAt.
  change ((m :: months) !! S j) with (months !! j).
  destruct (months !! j) as [mj |] eqn:Ej; [| reflexivity].
  destruct j as [| j'].
  - change ((m :: months) !! 0%nat) with (Some m). cbn [Nat.eqb andb].
    assert (Hmj : 1 <= mj).
    { rewrite Forall_forall in Hpos. apply Hpos. eapply list_elem_of_lookup_2. exact Ej. }
    destruct (m =? 12) eqn:E12.
    + rewrite orb_true_r. destruct (mj =? 0) eqn:E0; [apply Z.eqb_eq in E0; lia | reflexivity].
    + rewrite orb_false_r. reflexivity.
  - change ((m :: months) !! S j') with (months !! j').
    destruct (months !! j') as [m' |] eqn:Ej';
      [cbn [Nat.eqb andb default from_option id]; rewrite orb_false_r; reflexivity |].
    apply lookup_ge_None in Ej'. apply lookup_lt_Some in Ej. lia.
Qed.

(** C4, as the code has it: the tracker starts at 0, which is no month, and
    a column is labelled exactly when its month differs from the tracked one
    and it is not a column 0 in December. So column 0 is labelled unless it
    starts in December, January included; column 1 is labelled when its month
    differs from that of column 0 or column 0 was a December; every later
    column is labelled exactly when its month differs from that of the
    column before it; the labels come in column order, one per labelled
    column, with the name of the column's month. *)
Theorem C4_month_labels (blocks : Grid) (fullYear : bool) (months : list Z) :
  Forall2 (fun week m => firstCellMonth week = Some m)
          (labelledWeeks blocks fullYear) months ->
  exists labels,
    getMonthLabels blocks fullYear = Ok labels
    /\ map MonthLabel.x labels = List.filter (labelled months) (seq 0 (length months))
    /\ Forall (fun l => exists m, months !! MonthLabel.x l = Some m
                                 /\ MonthLabel.label l = monthName (m - 1))
              labels.
Proof.
  intros H. unfold getMonthLabels. rewrite slice_labelledWeeks.
  assert (Hpos : Forall (fun mj => 1 <= mj) months).
  { clear -H. induction H as [| week m ? ? Hm _ IH]; constructor; [| exact IH].
    apply firstCellMonth_ge_1 in Hm. lia. }
  destruct H as [| week m weeks months' Hm Hrest]; [exists []; repeat split; constructor |].
  apply Forall_cons in Hpos. destruct Hpos as [Hm1 Hpos].
  rewrite (monthLabelsLoop_step _ _ _ _ _ _ Hm). cbn [Nat.eqb andb].
  destruct (m =? 0) eqn:E0; [apply Z.eqb_eq in E0; lia |]. cbn [negb andb].
  rewrite (monthLabelsLoop_tail _ _ _ _ _ Hrest).
  rewrite (monthLabelsLoop_tail _ _ _ _ _ Hrest).
  set (q := if m =? 12 then 0 else m).
  assert (Hidx : List.filter (labelled (m :: months')) (seq 0 (length (m :: months')))
                 = ((if m =? 12 then [] else [0%nat])
                      ++ map S (List.filter (monthChangedAt q months')
                                  (seq 0 (length months'))))%list).
  { cbn [length seq]. rewrite <- seq_shift. cbn [List.filter].
    rewrite (filter_map_S _ (monthChangedAt q months'))
      by (intros j; apply labelled_succ; [exact Hpos | reflexivity]).
    change (labelled (m :: months') 0) with (negb (m =? 12)).
    destruct (m =? 12); reflexivity. }
  rewrite Hidx. subst q.
  destruct (m =? 12) eqn:E12; cbn [negb];
    eexists; (split; [reflexivity |]); (split; [| apply Forall_app; split]).
  - cbn [app]. rewrite labelsFrom_indices. reflexivity.
  - constructor.
  - eapply Forall_impl; [apply labelsFrom_texts |].
    intros l (j & mj & Hx & Hj & Hl). exists mj. rewrite Hx. split; assumption.
  - rewrite map_app, labelsFrom_indices. reflexivity.
  - constructor; [| constructor]. exists m. split; reflexivity.
  - eapply Forall_impl; [apply labelsFrom_texts |].
    intros l (j & mj & Hx & Hj & Hl). exists mj. rewrite Hx. split; assumption.
Qed.

Lemma C4_month_labels_witness :
  exists labels,
    getMonthLabels [[Block.mk "2018-12-30" None]; [Block.mk "2019-01-06" None];
                    [Block.mk "2019-01-13" None]; [Block.mk "2019-02-03" None]] false
    = Ok labels
    /\ map MonthLabel.x labels = List.filter (labelled [12; 1; 1; 2]) (seq 0 4)
    /\ Forall (fun l => exists m, [12; 1; 1; 2] !! MonthLabel.x l = Some m
                                 /\ MonthLabel.label l = monthName (m - 1))
              labels.
Proof.
  apply (C4_month_labels
           [[Block.mk "2018-12-30" None]; [Block.mk "2019-01-06" None];
            [Block.mk "2019-01-13" None]; [Block.mk "2019-02-03" None]]
           false [12; 1; 1; 2]).
  repeat constructor.
Defined.

(** C4 as stated fails: 2017 starts on a Sunday, and the code labels
    column 0 with "Jan"; a tracker started at January labels no January. *)
Lemma C4_january_is_labelled :
  labelList (blocks ← getBlocksForYear dec9 2017 june false; getMonthLabels blocks false)
  = [(0, "Jan"); (5, "Feb"); (9, "Mar"); (13, "Apr"); (18, "May"); (22, "Jun");
     (26, "Jul"); (31, "Aug"); (35, "Sep"); (39, "Oct"); (44, "Nov"); (48, "Dec")]%nat
  /\ labelList (blocks ← getBlocksForYear dec9 2017 june false;
                monthLabelsFromJanuary blocks false)
     = [(5, "Feb"); (9, "Mar"); (13, "Apr"); (18, "May"); (22, "Jun");
        (26, "Jul"); (31, "Aug"); (35, "Sep"); (39, "Oct"); (44, "Nov"); (48, "Dec")]%nat.
Proof.
  split; vm_compute; reflexivity.
Qed.

(** A rolling window that starts in the middle of December: column 0 is not
    labelled and column 1, still in December, is. *)
Example december_window_labels :
  firstn 2 (labelList (blocks ← getBlocksForYear dec9 2023 june true;
                        getMonthLabels blocks true))
  = [(1, "Dec"); (3, "Jan")]%nat.
Proof. vm_compute. reflexivity. Qed.

End MonthLabels.

(** ** The week grid: [getBlocksForYear] *)

Section WeekDays.

Lemma getDay_range (d : Z) : 0 <= getDay d <= 6.
Proof. unfold getDay, WeekDay. Z.div_mod_to_equations. lia. Qed.

Lemma getDay_add_7 (d : Z) : getDay (d + 7) = getDay d.
Proof. unfold getDay, WeekDay. Z.div_mod_to_equations. lia. Qed.

Lemma getDay_week_start (d : Z) : getDay (d - getDay d) = 0.
Proof. unfold getDay, WeekDay. Z.div_mod_to_equations. lia. Qed.

Lemma getDay_add (s k : Z) : getDay s = 0 -> 0 <= k <= 6 -> getDay (s + k) = k.
Proof. unfold getDay, WeekDay. intros Hs Hk. Z.div_mod_to_equations. lia. Qed.

(** [setDay(date, i)] for a day index 0..6 is day [i] of the week of
    [date], the week starting on Sunday. *)
Lemma setDay_index (d i : Z) : 0 <= i <= 6 -> setDay d i = d - getDay d + i.
Proof.
  intros Hi. pose proof (getDay_range d) as Hd. unfold setDay, addDays.
  destruct ((i <? 0) || (6 <? i)) eqn:E.
  - apply orb_true_iff in E. destruct E as [E | E];
      [apply Z.ltb_lt in E | apply Z.ltb_lt in E]; lia.
  - rewrite (Z.rem_small i 7) by lia.
    rewrite (Z.rem_mod_nonneg (i + 7) 7) by lia.
    rewrite (Z.rem_mod_nonneg (getDay d + 7) 7) by lia.
    replace ((i + 7) mod 7) with i by (Z.div_mod_to_equations; lia).
    rewrite (Z.rem_mod_nonneg (i + 7) 7) by lia.
    replace ((i + 7) mod 7) with i by (Z.div_mod_to_equations; lia).
    replace ((getDay d + 7) mod 7) with (getDay d) by (Z.div_mod_to_equations; lia).
    lia.
Qed.

(** [setDay(date, 7)] is the Sunday after the week of [date]. *)
Lemma setDay_7 (d : Z) : setDay d 7 = d - getDay d + 7.
Proof.
  pose proof (getDay_range d) as Hd. unfold setDay, addDays.
  change ((7 <? 0) || (6 <? 7)) with true. cbv iota.
  rewrite (Z.rem_mod_nonneg (getDay d + 7) 7) by lia.
  replace ((getDay d + 7) mod 7) with (getDay d) by (Z.div_mod_to_equations; lia).
  lia.
Qed.

End WeekDays.

Section FirstRow.

Variable data : ApiResult.t.
Variable lastDate : Z.

(** The loop ends by its condition: more fuel changes nothing. *)
Lemma firstRowLoop_fuel (fuel1 fuel2 : nat) (weekStart : Z) :
  (Z.to_nat (lastDate - weekStart + 1) <= fuel1)%nat ->
  (Z.to_nat (lastDate - weekStart + 1) <= fuel2)%nat ->
  firstRowLoop fuel1 data weekStart lastDate = firstRowLoop fuel2 data weekStart lastDate.
Proof.
  revert fuel2 weekStart.
  induction fuel1 as [| fuel1 IH]; intros fuel2 weekStart H1 H2.
  - destruct fuel2 as [| fuel2]; [reflexivity |]. cbn [firstRowLoop].
    destruct (weekStart <=? lastDate) eqn:E; [| reflexivity].
    apply Z.leb_le in E. lia.
  - cbn [firstRowLoop].
    destruct (weekStart <=? lastDate) eqn:E.
    + apply Z.leb_le in E. destruct fuel2 as [| fuel2]; [lia |].
      cbn [firstRowLoop]. rewrite (proj2 (Z.leb_le _ _) E). f_equal.
      pose proof (getDay_range weekStart) as Hd.
      apply IH; rewrite setDay_7; lia.
    + destruct fuel2 as [| fuel2]; [reflexivity |].
      cbn [firstRowLoop]. rewrite E. reflexivity.
Qed.

(** The loop as the source writes it. *)
Lemma firstRowDates_unfold (weekStart : Z) :
  firstRowDates data weekStart lastDate
  = if weekStart <=? lastDate
    then cell data weekStart :: firstRowDates data (setDay weekStart 7) lastDate
    else [].
Proof.
  unfold firstRowDates.
  destruct (weekStart <=? lastDate) eqn:E.
  - apply Z.leb_le in E.
    destruct (Z.to_nat (lastDate - weekStart + 1)) as [| fuel] eqn:Ef; [lia |].
    cbn [firstRowLoop]. rewrite (proj2 (Z.leb_le _ _) E). unfold cell. f_equal.
    pose proof (getDay_range weekStart) as Hd.
    apply firstRowLoop_fuel; rewrite setDay_7; lia.
  - destruct (Z.to_nat (lastDate - weekStart + 1)) as [| fuel]; [reflexivity |].
    cbn [firstRowLoop]. rewrite E. reflexivity.
Qed.

End FirstRow.

Section Columns.

Variable data : ApiResult.t.
Variable lastDate : Z.
Hypothesis lastDate_hi : lastDate + 1 < DayFromYear 10000.

(** The days of one week-column: from day index [i] of the week of
    [weekDate] to its Saturday, cut after [lastDate]. *)
Lemma weekDays_spec (n : nat) (weekDate i : Z) :
  0 <= i ->
  i + Z.of_nat n = 7 ->
  DayFromYear 1 <= weekDate - getDay weekDate ->
  weekDate - getDay weekDate + i <= lastDate + 1 ->
  weekDays n data lastDate weekDate i
  = map (cell data)
        (seqZ (weekDate - getDay weekDate + i)
              (Z.min (7 - i) (lastDate - (weekDate - getDay weekDate + i) + 1))).
Proof.
  set (s := weekDate - getDay weekDate).
  revert i. induction n as [| n IH]; intros i Hi Hn Hlo Hs.
  - rewrite seqZ_nil by lia. reflexivity.
  - cbn [weekDays]. rewrite setDay_index by lia. fold s.
    rewrite parseISO_format by (unfold inIsoRange; lia).
    unfold isAfter.
    destruct (lastDate <? s + i) eqn:E.
    + apply Z.ltb_lt in E. rewrite seqZ_nil by lia. reflexivity.
    + apply Z.ltb_ge in E. rewrite seqZ_cons by lia. cbn [map]. unfold cell at 2.
      f_equal. rewrite IH by lia. f_equal. f_equal; lia.
Qed.

Lemma weekColumn_cell (weekDate : Z) :
  DayFromYear 1 <= weekDate - getDay weekDate ->
  weekDate <= lastDate ->
  weekColumn data lastDate (cell data weekDate)
  = Ok (map (cell data)
          (seqZ (weekDate - getDay weekDate)
                (Z.min 7 (lastDate - (weekDate - getDay weekDate) + 1)))).
Proof.
  intros Hlo Hle. pose proof (getDay_range weekDate) as Hd.
  unfold weekColumn, cell at 1. cbn [Block.date].
  rewrite parseISO_format by (unfold inIsoRange; lia).
  rewrite (weekDays_spec 7 weekDate 0) by lia.
  rewrite Z.add_0_r, Z.sub_0_r. reflexivity.
Qed.

Lemma mapM_cons_Ok {A B : Type} (f : A -> result B) (a : A) (l : list A) (b : B)
  (bs : list B) :
  f a = Ok b -> mapM f l = Ok bs -> mapM f (a :: l) = Ok (b :: bs).
Proof. intros Ha Hl. cbn [mapM]. rewrite Ha, Hl. reflexivity. Qed.

Lemma numWeeks_succ (s : Z) :
  s <= lastDate -> numWeeks s lastDate = S (numWeeks (s + 7) lastDate).
Proof.
  intros Hs. unfold numWeeks.
  replace ((lastDate - (s + 7)) / 7 + 1) with ((lastDate - s) / 7)
    by (Z.div_mod_to_equations; lia).
  rewrite Z2Nat.inj_add by (try apply Z.div_pos; lia). cbn. lia.
Qed.

Lemma numWeeks_zero (s : Z) : lastDate < s -> numWeeks s lastDate = 0%nat.
Proof.
  intros Hs. unfold numWeeks.
  assert ((lastDate - s) / 7 + 1 <= 0) by (Z.div_mod_to_equations; lia). lia.
Qed.

(** The columns of the Sundays [s], [s + 7], ... *)
Lemma sunday_columns (n : nat) (s : Z) :
  getDay s = 0 ->
  n = numWeeks s lastDate ->
  DayFromYear 1 <= s ->
  mapM (weekColumn data lastDate) (firstRowDates data s lastDate)
  = Ok (map (map (cell data)) (weeksFrom n s lastDate)).
Proof.
  revert s. induction n as [| n IH]; intros s Hs Hn Hlo.
  - rewrite firstRowDates_unfold.
    destruct (s <=? lastDate) eqn:E; [| reflexivity].
    apply Z.leb_le in E. rewrite numWeeks_succ in Hn by exact E. discriminate.
  - rewrite firstRowDates_unfold.
    destruct (s <=? lastDate) eqn:E.
    + apply Z.leb_le in E. rewrite numWeeks_succ in Hn by exact E.
      injection Hn as Hn.
      rewrite setDay_7, Hs, Z.sub_0_r.
      cbn [weeksFrom map]. apply mapM_cons_Ok.
      * rewrite weekColumn_cell by lia. rewrite Hs, Z.sub_0_r. reflexivity.
      * apply IH; [rewrite getDay_add_7; exact Hs | exact Hn | lia].
    + apply Z.leb_gt in E. rewrite numWeeks_zero in Hn by exact E. discriminate.
Qed.

(** The grid of a window: the first week-start date is the window start
    moved on by its day index; the first column is the week of that date
    and the others are the weeks that follow. *)
Lemma blocksForWindow_columns (firstDate : Z) :
  let weekStart := firstDate + getDay firstDate in
  let s0 := weekStart - getDay weekStart in
  DayFromYear 1 <= s0 ->
  blocksForWindow firstDate lastDate data
  = Ok (map (map (cell data))
          (if weekStart <=? lastDate then weeksFrom (numWeeks s0 lastDate) s0 lastDate
           else [])).
Proof.
  intros weekStart s0 Hlo. unfold blocksForWindow, addDays.
  assert (Hws : (if negb (getDay firstDate =? 0) then firstDate + getDay firstDate
                 else firstDate) = weekStart).
  { subst weekStart. destruct (getDay firstDate =? 0) eqn:E; cbn [negb]; [| reflexivity].
    apply Z.eqb_eq in E. lia. }
  rewrite Hws. pose proof (getDay_range weekStart) as Hd.
  rewrite firstRowDates_unfold.
  destruct (weekStart <=? lastDate) eqn:E; [| reflexivity].
  apply Z.leb_le in E. rewrite setDay_7. fold s0.
  rewrite (numWeeks_succ s0) by lia. cbn [weeksFrom map].
  apply mapM_cons_Ok.
  - apply weekColumn_cell; [exact Hlo | exact E].
  - apply sunday_columns; [| reflexivity | lia].
    rewrite getDay_add_7. apply getDay_week_start.
Qed.

End Columns.

Section WeeksFrom.

Variable lastDate : Z.


(** Every column starts on the week day of [s], at or before [lastDate],
    and runs for seven days or up to [lastDate]. *)
Lemma weeksFrom_columns (n : nat) (s : Z) :
  n = numWeeks s lastDate ->
  Forall (fun col => exists t, getDay t = getDay s /\ s <= t <= lastDate
                               /\ col = seqZ t (Z.min 7 (lastDate - t + 1)))
         (weeksFrom n s lastDate).
Proof.
  revert s. induction n as [| n IH]; intros s Hn; [constructor |].
  destruct (Z_le_gt_dec s lastDate) as [Hle | Hgt];
    [| rewrite numWeeks_zero in Hn by lia; discriminate].
  rewrite numWeeks_succ in Hn by exact Hle. injection Hn as Hn.
  cbn [weeksFrom]. constructor.
  - exists s. repeat split; [lia | exact Hle].
  - eapply Forall_impl; [apply IH; exact Hn |].
    intros col (t & Ht & Hst & Hcol). exists t.
    rewrite getDay_add_7 in Ht. repeat split; [exact Ht | lia | lia | exact Hcol].
Qed.



End WeeksFrom.

Section GridClaims.

Lemma MakeDay_jan_1 (year : Z) : MakeDay year 0 1 = DayFromYear year.
Proof.
  rewrite MakeDay_in_year by lia.
  destruct (InLeapYear year); vm_compute (monthStart _ _); lia.
Qed.

Lemma MakeDay_dec_31 (year : Z) : MakeDay year 11 31 = DayFromYear (year + 1) - 1.
Proof.
  rewrite MakeDay_in_year by lia. rewrite DayFromYear_succ. unfold DaysInYear.
  destruct (InLeapYear year); vm_compute (monthStart _ _); lia.
Qed.

(** The window of a calendar year written with four digits. *)
Lemma calendar_year_window (now year : Z) :
  1000 <= year <= 9999 ->
  firstDateOf now year false = Some (MakeDay year 0 1)
  /\ lastDateOf now year false = Some (MakeDay year 11 31).
Proof.
  intros Hy. unfold firstDateOf, lastDateOf.
  rewrite parseISO_year_start, parseISO_year_end by exact Hy.
  rewrite MakeDay_jan_1, MakeDay_dec_31, DayFromYear_succ. split; reflexivity.
Qed.

(** Where the first column starts: the week-start date is the window start
    moved on by its day index, and the column is the week of that date. *)
Lemma first_week_start (firstDate : Z) :
  let weekStart := firstDate + getDay firstDate in
  weekStart - getDay weekStart
  = if getDay firstDate <=? 3 then firstDate - getDay firstDate
    else firstDate + 7 - getDay firstDate.
Proof.
  cbv zeta. destruct (getDay firstDate <=? 3) eqn:E;
    [apply Z.leb_le in E | apply Z.leb_gt in E];
    unfold getDay, WeekDay in *; Z.div_mod_to_equations; lia.
Qed.

Lemma seqZ_week_column (t lastDate : Z) :
  t <= lastDate ->
  head (seqZ t (Z.min 7 (lastDate - t + 1))) = Some t
  /\ (1 <= length (seqZ t (Z.min 7 (lastDate - t + 1))) <= 7)%nat.
Proof.
  intros Ht. split.
  - rewrite seqZ_cons by lia. reflexivity.
  - rewrite length_seqZ. lia.
Qed.




(** C10, as the code has it: every week-column holds the consecutive days
    of one week from its Sunday on, cut only after the window end, so no
    column is short at its start; when the window starts on a Thursday,
    Friday or Saturday the first column starts on the Sunday after the
    window start and holds no day before it. *)
Theorem C10_week_columns (now year : Z) (data : ApiResult.t) (fullYear : bool)
  (firstDate lastDate : Z) :
  firstDateOf now year fullYear = Some firstDate ->
  lastDateOf now year fullYear = Some lastDate ->
  DayFromYear 1 <= firstDate - 6 ->
  lastDate + 1 < DayFromYear 10000 ->
  exists cols : list (list Z),
    getBlocksForYear now year data fullYear = Ok (map (map (cell data)) cols)
    /\ Forall (fun col => exists t, getDay t = 0 /\ t <= lastDate
                                    /\ col = seqZ t (Z.min 7 (lastDate - t + 1))) cols
    /\ (4 <= getDay firstDate ->
        forall col, head cols = Some col ->
                    head col = Some (firstDate + 7 - getDay firstDate)
                    /\ Forall (fun x => firstDate < x) col).
Proof.
  intros Hf Hl Hlo Hhi.
  pose proof (getDay_range firstDate) as Hd.
  set (weekStart := firstDate + getDay firstDate).
  set (s0 := weekStart - getDay weekStart).
  pose proof (getDay_range weekStart) as Hdw.
  assert (Hs0 : getDay s0 = 0) by apply getDay_week_start.
  exists (if weekStart <=? lastDate then weeksFrom (numWeeks s0 lastDate) s0 lastDate
          else []).
  split; [| split].
  - unfold getBlocksForYear. rewrite Hf, Hl.
    apply blocksForWindow_columns; [exact Hhi |]. fold weekStart. fold s0. lia.
  - destruct (weekStart <=? lastDate); [| constructor].
    eapply Forall_impl; [apply weeksFrom_columns; reflexivity |].
    intros col (t & Ht & Hst & Hcol). exists t.
    split; [congruence | split; [lia | exact Hcol]].
  - intros H4 col Hcol.
    destruct (weekStart <=? lastDate) eqn:E; [| discriminate].
    apply Z.leb_le in E.
    rewrite (numWeeks_succ lastDate s0) in Hcol by lia.
    cbn [weeksFrom head] in Hcol. injection Hcol as <-.
    assert (Hs : s0 = firstDate + 7 - getDay firstDate).
    { subst s0 weekStart. rewrite first_week_start.
      destruct (getDay firstDate <=? 3) eqn:E3; [apply Z.leb_le in E3; lia | reflexivity]. }
    rewrite <- Hs. split.
    + apply seqZ_week_column. lia.
    + apply Forall_forall. intros x Hx. apply elem_of_seqZ in Hx. lia.
Qed.

Lemma C10_week_columns_witness :
  exists cols : list (list Z),
    getBlocksForYear dec9 2023 june true = Ok (map (map (cell june)) cols)
    /\ Forall (fun col => exists t, getDay t = 0 /\ t <= dec9
                                    /\ col = seqZ t (Z.min 7 (dec9 - t + 1))) cols
    /\ (4 <= getDay (subYears dec9 1) ->
        forall col, head cols = Some col ->
                    head col = Some (subYears dec9 1 + 7 - getDay (subYears dec9 1))
                    /\ Forall (fun x => subYears dec9 1 < x) col).
Proof.
  apply (C10_week_columns dec9 2023 june true (subYears dec9 1) dec9).
  - reflexivity.
  - reflexivity.
  - vm_compute. discriminate.
  - vm_compute. reflexivity.
Defined.

(** C10 as stated fails: the window of 2015 starts on a Thursday, and the
    first column starts on January 4 and holds no day before January 1. *)
Lemma C10_2015_first_column :
  firstDateOf dec9 2015 false = Some 16436
  /\ getDay 16436 = 4
  /\ format 16436 = "2015-01-01"
  /\ head (gridDates (getBlocksForYear dec9 2015 june false))
     = Some (map format [16439; 16440; 16441; 16442; 16443; 16444; 16445])
  /\ map format [16439; 16440; 16441; 16442; 16443; 16444; 16445]
     = ["2015-01-04"; "2015-01-05"; "2015-01-06"; "2015-01-07"; "2015-01-08";
        "2015-01-09"; "2015-01-10"].
Proof.
  repeat split; vm_compute; reflexivity.
Qed.

(** C5 at the year 2018, whose window starts on a Monday: the first
    week-start date is Tuesday, January 2, and the first column starts on
    Sunday, December 31, 2017, the day before the window start; the next
    Sunday is January 7. *)
Theorem C5_first_week_of_2018 :
  firstDateOf dec9 2018 false = Some 17532
  /\ lastDateOf dec9 2018 false = Some 17896
  /\ format 17532 = "2018-01-01"
  /\ getDay 17532 = 1
  /\ map Block.date (firstn 2 (firstRowDates june (addDays 17532 (getDay 17532)) 17896))
     = ["2018-01-02"; "2018-01-07"]
  /\ head (gridDates (getBlocksForYear dec9 2018 june false))
     = Some ["2017-12-31"; "2018-01-01"; "2018-01-02"; "2018-01-03"; "2018-01-04";
             "2018-01-05"; "2018-01-06"]
  /\ format (sundayOnOrAfter 17532) = "2018-01-07".
Proof.
  repeat split; vm_compute; reflexivity.
Qed.

(** The same for every window that starts on a Monday, Tuesday or
    Wednesday: the first column starts before the window start. *)
Lemma first_column_before_window_start (firstDate lastDate : Z) (data : ApiResult.t) :
  1 <= getDay firstDate <= 3 ->
  firstDate + getDay firstDate <= lastDate ->
  DayFromYear 1 <= firstDate - 6 ->
  lastDate + 1 < DayFromYear 10000 ->
  exists col cols,
    blocksForWindow firstDate lastDate data = Ok (map (cell data) col :: cols)
    /\ head col = Some (firstDate - getDay firstDate).
Proof.
  intros Hd Hle Hlo Hhi.
  pose proof (getDay_range (firstDate + getDay firstDate)) as Hdw.
  pose proof (first_week_start firstDate) as Hs. cbv zeta in Hs.
  destruct (getDay firstDate <=? 3) eqn:E3; [| apply Z.leb_gt in E3; lia].
  rewrite blocksForWindow_columns by (try exact Hhi; cbv zeta; lia).
  cbv zeta. rewrite Hs.
  destruct (firstDate + getDay firstDate <=? lastDate) eqn:E;
    [| apply Z.leb_gt in E; lia].
  rewrite (numWeeks_succ lastDate) by lia. cbn [weeksFrom map].
  eexists. eexists. split; [reflexivity |].
  apply seqZ_week_column. lia.
Qed.

End GridClaims.

(** ** More on the merger *)

Section MergerMore.

Lemma colorTable_last_acc (cs : list Contribution.t) (acc : gmap Z Shade.t) (k : Z) :
  fold_left
    (fun t contribution =>
       <[Contribution.count contribution :=
           Shade.mk (Contribution.color contribution)
                    (Contribution.intensity contribution)]> t)
    cs acc !! k
  = match last (filter (fun c => Contribution.count c = k) cs) with
    | Some c => Some (Shade.mk (Contribution.color c) (Contribution.intensity c))
    | None => acc !! k
    end.
Proof.
  revert acc. induction cs as [| c cs IH]; intros acc; [reflexivity |].
  cbn [fold_left]. rewrite IH, filter_cons.
  destruct (decide (Contribution.count c = k)) as [Hk | Hk].
  - rewrite last_cons.
    destruct (last (filter (fun c0 => Contribution.count c0 = k) cs)); [reflexivity |].
    rewrite Hk. apply lookup_insert_eq.
  - destruct (last (filter (fun c0 => Contribution.count c0 = k) cs)); [reflexivity |].
    apply lookup_insert_ne. exact Hk.
Qed.

(** The table holds, for a count, the colour and intensity of the last
    primary record with that count. *)
Lemma colorTable_last (cs : list Contribution.t) (k : Z) :
  colorTable cs !! k
  = (fun c => Shade.mk (Contribution.color c) (Contribution.intensity c))
      <$> last (filter (fun c => Contribution.count c = k) cs).
Proof.
  unfold colorTable. rewrite colorTable_last_acc.
  destruct (last _); [reflexivity | apply lookup_empty].
Qed.

(** X1: a merged count that some primary record has takes the colour and
    the intensity of the last primary record with that count. *)
Theorem merged_count_of_known_bucket (zone : Z -> Z) (gitlabContributions : gmap string Z)
  (githubContributions : ApiResult.t) (i : nat) (c c' : Contribution.t) (g : Z) :
  ApiResult.contributions githubContributions !! i = Some c ->
  gitlabContributions !! Contribution.date c = Some g ->
  last (filter (fun c0 => Contribution.count c0 = Contribution.count c + g)
               (ApiResult.contributions githubContributions)) = Some c' ->
  ApiResult.contributions (combineContributions zone gitlabContributions githubContributions)
    !! i
  = Some (Contribution.mk (Contribution.date c) (Contribution.count c + g)
            (Contribution.color c') (Contribution.intensity c')).
Proof.
  intros Hi Hg Hlast.
  rewrite combineContributions_contributions.
  change (map ?f ?l) with (f <$> l). rewrite list_lookup_fmap, Hi.
  cbn [fmap option_fmap option_map]. f_equal.
  unfold addGitlab. rewrite Hg, colorTable_last, Hlast. reflexivity.
Qed.

Lemma merged_count_of_known_bucket_witness :
  ApiResult.contributions (combineContributions utc juneGitlab3 june) !! 1%nat
  = Some (Contribution.mk "2023-06-02" (3 + 2) "#7bc96f" (Some 2)).
Proof.
  apply (merged_count_of_known_bucket utc juneGitlab3 june 1
           (Contribution.mk "2023-06-02" 3 "#c6e48b" (Some 1))
           (Contribution.mk "2023-06-01" 5 "#7bc96f" (Some 2)) 2).
  - reflexivity.
  - vm_compute. reflexivity.
  - vm_compute. reflexivity.
Defined.

(** X2: with an empty secondary map the merger returns the primary series
    as it is. *)
Theorem combineContributions_empty (zone : Z -> Z) (githubContributions : ApiResult.t) :
  combineContributions zone ∅ githubContributions = githubContributions.
Proof.
  destruct githubContributions as [ys cs].
  pose proof (combineContributions_contributions zone ∅ (ApiResult.mk ys cs)) as Hc.
  pose proof (combineContributions_years zone ∅ (ApiResult.mk ys cs)) as Hy.
  destruct (combineContributions zone ∅ (ApiResult.mk ys cs)) as [ys' cs'].
  cbn [ApiResult.contributions ApiResult.years] in *. subst ys' cs'. f_equal.
  - rewrite <- (map_id ys) at 2. apply map_ext. intros [y t r].
    cbn [YearEntry.year YearEntry.total YearEntry.range]. f_equal.
    unfold touchedDates. cbn [ApiResult.contributions].
    assert (Hnil : filter (fun d => is_Some ((∅ : gmap string Z) !! d)
                                    /\ fullYearString zone d = y)
                          (map Contribution.date cs) = []).
    { induction (map Contribution.date cs) as [| d ds IH]; [reflexivity |].
      rewrite filter_cons, IH.
      destruct (decide _) as [[[? Hd] _] | _]; [| reflexivity].
      rewrite lookup_empty in Hd. discriminate. }
    rewrite Hnil. cbn. lia.
  - rewrite <- (map_id cs) at 2. apply map_ext. intros c.
    unfold addGitlab. rewrite lookup_empty. reflexivity.
Qed.

Lemma find_map_date (f : Contribution.t -> Contribution.t) (cs : list Contribution.t)
  (date : string) :
  (forall c, Contribution.date (f c) = Contribution.date c) ->
  List.find (fun contrib => String.eqb (Contribution.date contrib) date) (map f cs)
  = f <$> List.find (fun contrib => String.eqb (Contribution.date contrib) date) cs.
Proof.
  intros Hf. induction cs as [| c cs IH]; [reflexivity |].
  cbn [map List.find]. rewrite Hf.
  destruct (String.eqb (Contribution.date c) date); [reflexivity | exact IH].
Qed.

Lemma addGitlab_date (zone : Z -> Z) (gitlabContributions : gmap string Z)
  (t : gmap Z Shade.t) (c : Contribution.t) (ys : gmap string Z) :
  Contribution.date (addGitlab zone gitlabContributions t c ys).1 = Contribution.date c.
Proof.
  unfold addGitlab.
  destruct (gitlabContributions !! Contribution.date c); [| reflexivity].
  destruct (t !! _); reflexivity.
Qed.

Lemma addGitlab_count (zone : Z -> Z) (gitlabContributions : gmap string Z)
  (t : gmap Z Shade.t) (c : Contribution.t) (ys : gmap string Z) :
  match gitlabContributions !! Contribution.date c with
  | Some g =>
      Contribution.count (addGitlab zone gitlabContributions t c ys).1
      = Contribution.count c + g
  | None => (addGitlab zone gitlabContributions t c ys).1 = c
  end.
Proof.
  unfold addGitlab.
  destruct (gitlabContributions !! Contribution.date c); [| reflexivity].
  destruct (t !! _); reflexivity.
Qed.

(** X3: looking a date up in the merged series gives the merged form of
    what the primary series has for it: nothing when the primary series has
    no record of that date, the record with the secondary count added when
    the secondary map has the date, and the primary record itself
    otherwise. *)
Theorem lookup_in_merged_series (zone : Z -> Z) (gitlabContributions : gmap string Z)
  (githubContributions : ApiResult.t) (date : string) :
  match getContributionsForDate githubContributions date with
  | None =>
      getContributionsForDate
        (combineContributions zone gitlabContributions githubContributions) date = None
  | Some c =>
      exists c',
        getContributionsForDate
          (combineContributions zone gitlabContributions githubContributions) date = Some c'
        /\ Contribution.date c' = date
        /\ match gitlabContributions !! date with
           | Some g => Contribution.count c' = Contribution.count c + g
           | None => c' = c
           end
  end.
Proof.
  unfold getContributionsForDate. rewrite combineContributions_contributions.
  rewrite find_map_date by (intros c; apply addGitlab_date).
  destruct (List.find _ (ApiResult.contributions githubContributions)) as [c |] eqn:Ef;
    [| reflexivity].
  apply find_some in Ef. destruct Ef as [_ Hd]. apply String.eqb_eq in Hd.
  eexists. split; [reflexivity |]. split.
  - rewrite addGitlab_date. exact Hd.
  - pose proof (addGitlab_count zone gitlabContributions
                  (colorTable (ApiResult.contributions githubContributions)) c ∅) as Hc.
    rewrite Hd in Hc. exact Hc.
Qed.

Lemma find_map_year (f : YearEntry.t -> YearEntry.t) (ys : list YearEntry.t)
  (year : string) :
  (forall y, YearEntry.year (f y) = YearEntry.year y) ->
  List.find (fun entry => String.eqb (YearEntry.year entry) year) (map f ys)
  = f <$> List.find (fun entry => String.eqb (YearEntry.year entry) year) ys.
Proof.
  intros Hf. induction ys as [| y ys IH]; [reflexivity |].
  cbn [map List.find]. rewrite Hf.
  destruct (String.eqb (YearEntry.year y) year); [reflexivity | exact IH].
Qed.

Lemma digitChar_inj (a b : Z) :
  0 <= a < 10 -> 0 <= b < 10 -> digitChar a = digitChar b -> a = b.
Proof.
  intros Ha Hb H. apply (f_equal digitVal) in H.
  rewrite !digitVal_digitChar in H by lia. congruence.
Qed.

(** A number written with four digits is written like no other number up
    to 9999. *)
Lemma toString_4digits_inj (a b : Z) :
  0 <= a <= 9999 -> 1000 <= b <= 9999 -> toString a = toString b -> a = b.
Proof.
  intros Ha Hb. rewrite (toString_4digits b) by lia.
  destruct (Z_lt_le_dec a 10) as [H1 | H1];
    [| destruct (Z_lt_le_dec a 100) as [H2 | H2];
       [| destruct (Z_lt_le_dec a 1000) as [H3 | H3]]].
  - rewrite toString_digit by lia. discriminate.
  - rewrite toString_2digits by lia. discriminate.
  - rewrite toString_3digits by lia. discriminate.
  - rewrite toString_4digits by lia. intros H.
    injection H as E1 E2 E3 E4.
    apply digitChar_inj in E1, E2, E3, E4; Z.div_mod_to_equations; lia.
Qed.

(** Where the zone is not behind UTC, the touched dates the merger files
    under a year are the touched days of that calendar year. *)
Lemma touchedDays_filed (zone : Z -> Z) (gitlabContributions : gmap string Z)
  (days : list Z) (year : Z) :
  (forall d, -1440 < zone d <= 0) ->
  Forall inIsoRange days ->
  1000 <= year <= 9999 ->
  length (filter (fun d => is_Some (gitlabContributions !! d)
                           /\ fullYearString zone d = toString year)
                 (map format days))
  = length (touchedDaysOfYear gitlabContributions days year).
Proof.
  intros Hz Hdays Hy. unfold touchedDaysOfYear.
  induction Hdays as [| d days Hd _ IH]; [reflexivity |].
  cbn [map]. rewrite !filter_cons.
  pose proof (YearFromDay_range 1 10000 d Hd) as Hr.
  rewrite (fullYearString_format zone d Hd (Hz d)).
  destruct (decide (is_Some (gitlabContributions !! format d)
                    /\ toString (getFullYear d) = toString year)) as [[Hs He] | Hn];
    destruct (decide (is_Some (gitlabContributions !! format d) /\ getFullYear d = year))
      as [[Hs' He'] | Hn']; cbn [length]; try (rewrite IH; reflexivity).
  - exfalso. apply Hn'. split; [exact Hs |].
    apply toString_4digits_inj; [unfold getFullYear; lia | exact Hy | exact He].
  - exfalso. apply Hn. split; [exact Hs' |]. rewrite He'. reflexivity.
Qed.

(** X4: in a time zone that is not behind UTC, for a primary series whose
    records are dated by days of the years 1 to 9999, the calendar-year
    total of the merged series, for a year written with four digits, is
    the primary series' total for that year plus the number of records
    dated in that calendar year whose date the secondary source has; it is
    0 for a year the primary series has no summary of. *)
Theorem year_total_of_merged_series (zone : Z -> Z) (gitlabContributions : gmap string Z)
  (githubContributions : ApiResult.t) (days : list Z) (year : Z) :
  (forall d, -1440 < zone d <= 0) ->
  map Contribution.date (ApiResult.contributions githubContributions) = map format days ->
  Forall inIsoRange days ->
  1000 <= year <= 9999 ->
  getContributionCountForYear
    (combineContributions zone gitlabContributions githubContributions) year
  = match List.find (fun entry => String.eqb (YearEntry.year entry) (toString year))
                    (ApiResult.years githubContributions) with
    | Some _ =>
        getContributionCountForYear githubContributions year
        + Z.of_nat (length (touchedDaysOfYear gitlabContributions days year))
    | None => 0
    end.
Proof.
  intros Hz Hdates Hdays Hyear.
  unfold getContributionCountForYear. rewrite combineContributions_years.
  rewrite find_map_year by reflexivity.
  destruct (List.find _ (ApiResult.years githubContributions)) as [y |] eqn:Ef;
    [| reflexivity].
  apply find_some in Ef. destruct Ef as [_ Hy]. apply String.eqb_eq in Hy.
  cbn [fmap option_fmap option_map YearEntry.total]. rewrite Hy.
  unfold touchedDates. rewrite Hdates.
  rewrite (touchedDays_filed zone gitlabContributions days year Hz Hdays Hyear).
  reflexivity.
Qed.

Lemma year_total_of_merged_series_witness :
  getContributionCountForYear (combineContributions utc juneGitlab june) 2023
  = match List.find (fun entry => String.eqb (YearEntry.year entry) (toString 2023))
                    (ApiResult.years june) with
    | Some _ =>
        getContributionCountForYear june 2023
        + Z.of_nat (length (touchedDaysOfYear juneGitlab [19509; 19510] 2023))
    | None => 0
    end.
Proof.
  apply (year_total_of_merged_series utc juneGitlab june [19509; 19510] 2023).
  - intros d. unfold utc. lia.
  - reflexivity.
  - repeat constructor; unfold inIsoRange; vm_compute; intuition discriminate.
  - lia.
Defined.

End MergerMore.

(** ** One year back: [subYears] *)

Section OneYearBack.

Lemma monthStart_bounds (leap : bool) (m : Z) :
  0 <= m <= 11 ->
  0 <= monthStart leap m
  /\ monthStart leap m + 28 <= monthStart leap (m + 1)
  /\ monthStart leap (m + 1) <= (if leap then 366 else 365).
Proof.
  intros Hm.
  assert (Hc : m = 0 \/ m = 1 \/ m = 2 \/ m = 3 \/ m = 4 \/ m = 5 \/ m = 6
               \/ m = 7 \/ m = 8 \/ m = 9 \/ m = 10 \/ m = 11) by lia.
  destruct leap;
    repeat (destruct Hc as [-> | Hc]; [vm_compute; repeat split; discriminate |]);
    subst m; vm_compute; repeat split; discriminate.
Qed.

(** The fields of the day [MakeDay] makes from a year, a month and a date
    of that month. *)
Lemma MakeDay_fields (y m t : Z) :
  0 <= m <= 11 ->
  1 <= t <= daysInMonth y m ->
  YearFromDay (MakeDay y m t) = y
  /\ MonthFromDay (MakeDay y m t) = m
  /\ DateFromDay (MakeDay y m t) = t.
Proof.
  intros Hm Ht. rewrite MakeDay_in_year by exact Hm.
  unfold daysInMonth in Ht.
  pose proof (monthStart_bounds (InLeapYear y) m Hm) as (H0 & H28 & Hend).
  set (w := monthStart (InLeapYear y) m + t - 1).
  assert (Hw : 0 <= w < DaysInYear y).
  { subst w. unfold DaysInYear. destruct (InLeapYear y); lia. }
  assert (Hy : YearFromDay (DayFromYear y + w) = y)
    by (apply YearFromDay_DayFromYear; exact Hw).
  replace (DayFromYear y + monthStart (InLeapYear y) m + t - 1)
    with (DayFromYear y + w) by (subst w; lia).
  split; [exact Hy |].
  assert (Hmonth : MonthFromDay (DayFromYear y + w) = m).
  { unfold MonthFromDay, DayWithinYear. rewrite Hy.
    replace (DayFromYear y + w - DayFromYear y) with w by lia.
    subst w.
    assert (Hc : m = 0 \/ m = 1 \/ m = 2 \/ m = 3 \/ m = 4 \/ m = 5 \/ m = 6
                 \/ m = 7 \/ m = 8 \/ m = 9 \/ m = 10 \/ m = 11) by lia.
    destruct (InLeapYear y);
      repeat (destruct Hc as [Hc | Hc];
              [subst m;
               repeat match goal with
                      | H : context [monthStart ?l ?k] |- _ =>
                          let v := eval vm_compute in (monthStart l k) in
                          change (monthStart l k) with v in H
                      | |- context [monthStart ?l ?k] =>
                          let v := eval vm_compute in (monthStart l k) in
                          change (monthStart l k) with v
                      end;
               repeat match goal with
                      | |- context [if ?a <? ?b then _ else _] =>
                          let E := fresh "E" in
                          destruct (a <? b) eqn:E;
                          [apply Z.ltb_lt in E | apply Z.ltb_ge in E]
                      end; lia |]);
      subst m;
      repeat match goal with
             | H : context [monthStart ?l ?k] |- _ =>
                 let v := eval vm_compute in (monthStart l k) in
                 change (monthStart l k) with v in H
             | |- context [monthStart ?l ?k] =>
                 let v := eval vm_compute in (monthStart l k) in
                 change (monthStart l k) with v
             end;
      repeat match goal with
             | |- context [if ?a <? ?b then _ else _] =>
                 let E := fresh "E" in
                 destruct (a <? b) eqn:E;
                 [apply Z.ltb_lt in E | apply Z.ltb_ge in E]
             end; lia. }
  split; [exact Hmonth |].
  unfold DateFromDay, DayWithinYear. rewrite Hmonth, Hy. subst w. lia.
Qed.

Lemma leap_years_apart (y : Z) : InLeapYear y = true -> InLeapYear (y - 1) = false.
Proof.
  unfold InLeapYear. intros H. apply andb_true_iff in H. destruct H as [H4 _].
  apply Z.eqb_eq in H4.
  destruct ((y - 1) mod 4 =? 0) eqn:E; [| reflexivity].
  apply Z.eqb_eq in E. exfalso. Z.div_mod_to_equations. lia.
Qed.

(** [subYears(now, 1)] is 365 or 366 days before [now]. *)
Lemma subYears_distance (now : Z) : now - 366 <= subYears now 1 <= now - 365.
Proof.
  unfold subYears, addMonths, getMonth, getFullYear.
  change (- (1 * 12)) with (-12).
  destruct (calendar_fields now) as (Hm & Ht & Hmk).
  set (y := YearFromDay now) in *. set (m := MonthFromDay now) in *.
  set (t := DateFromDay now) in *.
  assert (Hshift : forall date, MakeDay y (m + -12) date = MakeDay (y - 1) m date).
  { intros date. unfold MakeDay.
    replace ((m + -12) / 12) with (-1) by (Z.div_mod_to_equations; lia).
    replace ((m + -12) mod 12) with m by (Z.div_mod_to_equations; lia).
    replace (m / 12) with 0 by (Z.div_mod_to_equations; lia).
    replace (m mod 12) with m by (Z.div_mod_to_equations; lia).
    replace (y + -1) with (y - 1) by lia. rewrite Z.add_0_r. reflexivity. }
  rewrite !Hshift.
  pose proof (monthStart_bounds (InLeapYear (y - 1)) m Hm) as (_ & H28 & _).
  destruct (MakeDay_fields (y - 1) m 1 Hm) as (Hy1 & Hm1 & _);
    [unfold daysInMonth; lia |].
  rewrite Hy1, Hm1.
  rewrite MakeDay_in_year in Hmk by exact Hm.
  rewrite MakeDay_in_year by exact Hm.
  assert (Hyear : DayFromYear y = DayFromYear (y - 1) + DaysInYear (y - 1)).
  { rewrite <- DayFromYear_succ. f_equal. lia. }
  unfold daysInMonth in *. unfold DaysInYear in Hyear.
  pose proof (leap_years_apart y) as Hleap.
  assert (Hc : m = 0 \/ m = 1 \/ m = 2 \/ m = 3 \/ m = 4 \/ m = 5 \/ m = 6
               \/ m = 7 \/ m = 8 \/ m = 9 \/ m = 10 \/ m = 11) by lia.
  clearbody y m t.
  destruct (InLeapYear y); [rewrite Hleap in * by reflexivity |
                            destruct (InLeapYear (y - 1))];
    repeat (destruct Hc as [Hc | Hc];
            [subst m;
             repeat match goal with
                    | H : context [monthStart ?l ?k] |- _ =>
                        let v := eval vm_compute in (monthStart l k) in
                        change (monthStart l k) with v in H
                    | |- context [monthStart ?l ?k] =>
                        let v := eval vm_compute in (monthStart l k) in
                        change (monthStart l k) with v
                    end; lia |]);
    subst m;
    repeat match goal with
           | H : context [monthStart ?l ?k] |- _ =>
               let v := eval vm_compute in (monthStart l k) in
               change (monthStart l k) with v in H
           | |- context [monthStart ?l ?k] =>
               let v := eval vm_compute in (monthStart l k) in
               change (monthStart l k) with v
           end; lia.
Qed.

End OneYearBack.

(** ** More on the week grid *)

Section GridMore.

(** The grid of a window of at least a week, in the range of the date
    strings: the columns are the weeks from a Sunday at most three days
    before or after the window start up to the window end. *)
Lemma window_grid (firstDate lastDate : Z) (data : ApiResult.t) :
  firstDate + 6 <= lastDate ->
  DayFromYear 1 <= firstDate - 6 ->
  lastDate + 1 < DayFromYear 10000 ->
  exists s0 : Z,
    blocksForWindow firstDate lastDate data
    = Ok (map (map (cell data)) (weeksFrom (numWeeks s0 lastDate) s0 lastDate))
    /\ getDay s0 = 0
    /\ s0 = (if getDay firstDate <=? 3 then firstDate - getDay firstDate
             else firstDate + 7 - getDay firstDate).
Proof.
  intros Hspan Hlo Hhi.
  pose proof (getDay_range firstDate) as Hd.
  pose proof (first_week_start firstDate) as Hs. cbv zeta in Hs.
  exists ((firstDate + getDay firstDate) - getDay (firstDate + getDay firstDate)).
  split; [| split; [apply getDay_week_start | exact Hs]].
  rewrite blocksForWindow_columns;
    [| exact Hhi | cbv zeta; rewrite Hs; destruct (getDay firstDate <=? 3); lia].
  cbv zeta.
  destruct (firstDate + getDay firstDate <=? lastDate) eqn:E; [reflexivity |].
  apply Z.leb_gt in E. lia.
Qed.






End GridMore.

Section CellInfo.

Variable data : ApiResult.t.

Lemma getContributionsForDate_first (cs : list Contribution.t) (date : string) :
  match List.find (fun contrib => String.eqb (Contribution.date contrib) date) cs with
  | Some c =>
      exists i, cs !! i = Some c
                /\ Contribution.date c = date
                /\ forall j c', (j < i)%nat -> cs !! j = Some c' ->
                                Contribution.date c' <> date
  | None => Forall (fun c => Contribution.date c <> date) cs
  end.
Proof.
  induction cs as [| c cs IH]; cbn [List.find]; [constructor |].
  destruct (String.eqb (Contribution.date c) date) eqn:E.
  - apply String.eqb_eq in E. exists 0%nat.
    split; [reflexivity | split; [exact E |]]. intros j c' Hj. lia.
  - apply String.eqb_neq in E.
    destruct (List.find _ cs) as [c0 |].
    + destruct IH as (i & Hi & Hd & Hfirst). exists (S i).
      split; [exact Hi | split; [exact Hd |]].
      intros [| j] c' Hj Hc'.
      * injection Hc' as <-. exact E.
      * apply (Hfirst j c'); [lia | exact Hc'].
    + constructor; assumption.
Qed.

Lemma cell_made_ok (date : string) :
  cellInfoOk data (Block.mk date (getContributionsForDate data date)).
Proof.
  unfold cellInfoOk, getContributionsForDate. cbn [Block.info Block.date].
  apply getContributionsForDate_first.
Qed.

Lemma weekDays_cells (n : nat) (lastDate weekDate i : Z) :
  Forall (cellInfoOk data) (weekDays n data lastDate weekDate i).
Proof.
  revert i. induction n as [| n IH]; intros i; cbn [weekDays]; [constructor |].
  destruct (isAfter _ lastDate); constructor; [apply cell_made_ok | apply IH].
Qed.

Lemma mapM_Ok_Forall {A B : Type} (f : A -> result B) (P : B -> Prop) (l : list A)
  (bs : list B) :
  (forall a b, f a = Ok b -> P b) -> mapM f l = Ok bs -> Forall P bs.
Proof.
  intros Hf. revert bs. induction l as [| a l IH]; intros bs; cbn [mapM].
  - intros [= <-]. constructor.
  - destruct (f a) as [b | e] eqn:Ea; cbn; [| discriminate].
    destruct (mapM f l) as [bs' | e]; cbn; [| discriminate].
    intros [= <-]. constructor; [eapply Hf; exact Ea | apply IH; reflexivity].
Qed.

(** X7: in every grid the projector returns, in either mode, each cell's
    [info] is the first record of the series with the cell's own date, and
    it is absent exactly when the series has no record of that date. *)
Theorem grid_cells_carry_their_date (now year : Z) (fullYear : bool) :
  match getBlocksForYear now year data fullYear with
  | Ok blocks => Forall (Forall (cellInfoOk data)) blocks
  | Throw _ => True
  end.
Proof.
  destruct (getBlocksForYear now year data fullYear) as [blocks | e] eqn:Eb; [| exact I].
  unfold getBlocksForYear in Eb.
  destruct (firstDateOf now year fullYear) as [firstDate |];
    [| injection Eb as <-; constructor].
  destruct (lastDateOf now year fullYear) as [lastDate |];
    [| injection Eb as <-; constructor].
  unfold blocksForWindow in Eb.
  eapply mapM_Ok_Forall; [| exact Eb].
  intros dateObj col Hcol. unfold weekColumn in Hcol.
  destruct (parseISO (Block.date dateObj)) as [weekDate |]; [| discriminate].
  replace col with (weekDays 7 data lastDate weekDate 0) by congruence.
  apply weekDays_cells.
Qed.

End CellInfo.

Section ShortYears.

Lemma isSign_digitChar (k : Z) : 0 <= k < 10 -> isSign (digitChar k) = false.
Proof.
  intros Hk.
  assert (Hc : k = 0 \/ k = 1 \/ k = 2 \/ k = 3 \/ k = 4 \/ k = 5 \/ k = 6
               \/ k = 7 \/ k = 8 \/ k = 9) by lia.
  repeat (destruct Hc as [-> | Hc]; [reflexivity |]). subst k. reflexivity.
Qed.

(** The hyphen comes within the first four characters, so these are not
    the digits of a year, and the first is no sign. *)
Lemma parseISO_short_year (year : Z) :
  0 <= year <= 999 -> parseISO (toString year +:+ "-01-01") = None.
Proof.
  intros Hy.
  destruct (Z_lt_le_dec year 10) as [H1 | H1];
    [| destruct (Z_lt_le_dec year 100) as [H2 | H2]].
  - rewrite toString_digit by lia.
    cbv [String.append]. unfold parseISO. cbn [list_ascii_of_string].
    unfold parseYear, num4, num2.
    rewrite digitVal_digitChar by lia.
    change (digitVal "-") with (@None Z). cbv beta iota.
    rewrite isSign_digitChar by lia. reflexivity.
  - rewrite toString_2digits by lia.
    cbv [String.append]. unfold parseISO. cbn [list_ascii_of_string].
    unfold parseYear, num4, num2.
    rewrite !digitVal_digitChar by (Z.div_mod_to_equations; lia).
    change (digitVal "-") with (@None Z). cbv beta iota.
    rewrite isSign_digitChar by (Z.div_mod_to_equations; lia). reflexivity.
  - rewrite toString_3digits by lia.
    cbv [String.append]. unfold parseISO. cbn [list_ascii_of_string].
    unfold parseYear, num4, num2.
    rewrite !digitVal_digitChar by (Z.div_mod_to_equations; lia).
    change (digitVal "-") with (@None Z). cbv beta iota.
    rewrite isSign_digitChar by (Z.div_mod_to_equations; lia). reflexivity.
Qed.

(** X8: for a requested year of one to three digits (0 to 999) the
    calendar-year window is an Invalid Date: the result has an empty grid,
    no month labels, and the total of the year's summary, and no exception
    is raised. *)
Theorem short_year_graph (now : Z) (data : ApiResult.t) (year : Z) :
  0 <= year <= 999 ->
  getGraphDataForYear now year data false
  = Ok (GraphData.mk year [] [] (getContributionCountForYear data year)).
Proof.
  intros Hy. unfold getGraphDataForYear, getBlocksForYear, firstDateOf.
  rewrite parseISO_short_year by exact Hy.
  reflexivity.
Qed.

Lemma short_year_graph_witness :
  getGraphDataForYear dec9 999 june false
  = Ok (GraphData.mk 999 [] [] (getContributionCountForYear june 999)).
Proof.
  apply (short_year_graph dec9 june 999). lia.
Defined.

End ShortYears.

(** ** More on the month labels *)

Section LabelsMore.

Lemma monthLabelsLoop_inv (weeks : Grid) (x : nat) (p : Z) (acc labels : MonthLabels) :
  monthLabelsLoop weeks x p acc = Ok labels ->
  exists new,
    labels = (acc ++ new)%list
    /\ Forall (fun l => exists k week first d,
                   MonthLabel.x l = (x + k)%nat
                   /\ weeks !! k = Some week
                   /\ head week = Some first
                   /\ parseISO (Block.date first) = Some d
                   /\ MonthLabel.label l = formatMMM d) new
    /\ StronglySorted lt (map MonthLabel.x new).
Proof.
  revert x p acc labels.
  induction weeks as [| week rest IH]; intros x p acc labels; cbn [monthLabelsLoop].
  - intros [= <-]. exists []. rewrite app_nil_r. repeat split; constructor.
  - destruct week as [| first more] eqn:Ew; [discriminate |].
    destruct (parseISO (Block.date first)) as [d |] eqn:Ed; [| discriminate].
    assert (Hshift :
      forall new : MonthLabels,
        Forall (fun l => exists k week first d,
                    MonthLabel.x l = (S x + k)%nat
                    /\ rest !! k = Some week
                    /\ head week = Some first
                    /\ parseISO (Block.date first) = Some d
                    /\ MonthLabel.label l = formatMMM d) new ->
        Forall (fun l => exists k week0 first0 d0,
                    MonthLabel.x l = (x + k)%nat
                    /\ ((first :: more) :: rest) !! k = Some week0
                    /\ head week0 = Some first0
                    /\ parseISO (Block.date first0) = Some d0
                    /\ MonthLabel.label l = formatMMM d0) new).
    { intros new Hnew. eapply Forall_impl; [exact Hnew |].
      intros l (k & w & f & d0 & Hx & Hk & Hh & Hp & Hl).
      exists (S k), w, f, d0. repeat split; try assumption. lia. }
    destruct (_ && _).
    + intros H. destruct (IH _ _ _ _ H) as (new & -> & Hall & Hsorted).
      exists (MonthLabel.mk x (formatMMM d) :: new).
      split; [rewrite <- app_assoc; reflexivity |]. split.
      * constructor; [| apply Hshift; exact Hall].
        exists 0%nat, (first :: more), first, d.
        repeat split; [cbn; lia | exact Ed].
      * cbn [map MonthLabel.x]. constructor; [exact Hsorted |].
        apply Forall_fmap. eapply Forall_impl; [exact Hall |].
        intros l (k & _ & _ & _ & Hx & _). cbn. lia.
    + intros H. destruct (IH _ _ _ _ H) as (new & -> & Hall & Hsorted).
      exists new. split; [reflexivity |]. split; [apply Hshift; exact Hall | exact Hsorted].
Qed.

(** X9: when [getMonthLabels] returns, the labels are in strictly
    increasing column order, and each sits on a walked column and carries
    the short name of the month of that column's first cell; with
    [fullYear] no label sits on the last column of the grid. *)
Theorem month_labels_in_column_order (blocks : Grid) (fullYear : bool) :
  match getMonthLabels blocks fullYear with
  | Ok labels =>
      StronglySorted lt (map MonthLabel.x labels)
      /\ Forall (labelOnColumn (labelledWeeks blocks fullYear)) labels
      /\ Forall (fun l => (MonthLabel.x l
                           < (if fullYear then length blocks - 1 else length blocks))%nat)
                labels
  | Throw _ => True
  end.
Proof.
  destruct (getMonthLabels blocks fullYear) as [labels | e] eqn:El; [| exact I].
  unfold getMonthLabels in El. rewrite slice_labelledWeeks in El.
  destruct (monthLabelsLoop_inv _ _ _ _ _ El) as (new & -> & Hall & Hsorted).
  cbn [app]. split; [exact Hsorted |].
  assert (Hon : Forall (labelOnColumn (labelledWeeks blocks fullYear)) new).
  { eapply Forall_impl; [exact Hall |].
    intros l (k & w & f & d & Hx & Hk & Hh & Hp & Hl).
    exists w, f, d. cbn in Hx. rewrite Hx. repeat split; assumption. }
  split; [exact Hon |].
  eapply Forall_impl; [exact Hon |].
  intros l (w & _ & _ & Hk & _). apply lookup_lt_Some in Hk.
  unfold labelledWeeks in Hk. destruct fullYear; [| exact Hk].
  rewrite removelast_firstn_len, length_take in Hk. lia.
Qed.

End LabelsMore.

Section YearLabels.

Lemma MonthFromDay_in_year (y w : Z) :
  0 <= w < DaysInYear y ->
  MonthFromDay (DayFromYear y + w) = monthInYear (InLeapYear y) w.
Proof.
  intros Hw. unfold MonthFromDay, DayWithinYear.
  rewrite YearFromDay_DayFromYear by exact Hw.
  replace (DayFromYear y + w - DayFromYear y) with w by lia. reflexivity.
Qed.

Lemma MonthFromDay_before_year (y j : Z) :
  1 <= j <= 3 -> MonthFromDay (DayFromYear y - j) = 11.
Proof.
  intros Hj. pose proof (DaysInYear_bounds (y - 1)) as Hb.
  assert (Hyear : DayFromYear y = DayFromYear (y - 1) + DaysInYear (y - 1))
    by (rewrite <- DayFromYear_succ; f_equal; lia).
  replace (DayFromYear y - j) with (DayFromYear (y - 1) + (DaysInYear (y - 1) - j))
    by lia.
  clear Hyear.
  rewrite MonthFromDay_in_year by lia.
  unfold DaysInYear in *. unfold monthInYear.
  destruct (InLeapYear (y - 1));
    repeat match goal with
           | |- context [monthStart ?l ?k] =>
               let v := eval vm_compute in (monthStart l k) in
               change (monthStart l k) with v
           end;
    repeat match goal with
           | |- context [if ?a <? ?b then _ else _] =>
               let E := fresh "E" in
               destruct (a <? b) eqn:E;
               [apply Z.ltb_lt in E; lia | clear E]
           end; reflexivity.
Qed.

Lemma numWeeks_lt (s lastDate : Z) (k : nat) :
  (k < numWeeks s lastDate)%nat -> s + 7 * Z.of_nat k <= lastDate.
Proof.
  unfold numWeeks. intros Hk.
  assert (Z.of_nat k < (lastDate - s) / 7 + 1) by lia.
  Z.div_mod_to_equations. lia.
Qed.

Variable data : ApiResult.t.

Lemma weeksFrom_months (n : nat) (s lastDate : Z) :
  n = numWeeks s lastDate ->
  DayFromYear 1 <= s ->
  lastDate < DayFromYear 10000 ->
  Forall2 (fun week m => firstCellMonth week = Some m)
          (map (map (cell data)) (weeksFrom n s lastDate))
          (map (fun k => getMonth (s + 7 * Z.of_nat k) + 1) (seq 0 n)).
Proof.
  revert s. induction n as [| n IH]; intros s Hn Hlo Hhi; [constructor |].
  destruct (Z_le_gt_dec s lastDate) as [Hle | Hgt];
    [| rewrite numWeeks_zero in Hn by lia; discriminate].
  rewrite numWeeks_succ in Hn by exact Hle. injection Hn as Hn.
  cbn [weeksFrom map seq]. constructor.
  - rewrite seqZ_cons by lia. cbn [map firstCellMonth cell Block.date].
    rewrite parseISO_format by (unfold inIsoRange; lia).
    cbn [option_map]. do 3 f_equal. lia.
  - rewrite <- seq_shift, map_map.
    specialize (IH (s + 7) Hn ltac:(lia) Hhi).
    rewrite (map_ext (fun x => getMonth (s + 7 * Z.of_nat (S x)) + 1)
                     (fun k => getMonth (s + 7 + 7 * Z.of_nat k) + 1));
      [exact IH |].
    intros k. do 2 f_equal. lia.
Qed.

Lemma Forall2_removelast {A B : Type} (P : A -> B -> Prop) (l : list A) (k : list B) :
  Forall2 P l k -> Forall2 P (removelast l) (removelast k).
Proof.
  intros H. induction H as [| a b l k Hab Hlk IH]; [constructor |].
  cbn [removelast]. destruct Hlk; [constructor |].
  constructor; [exact Hab | exact IH].
Qed.

(** The labels of a grid whose walked columns all have a first cell with a
    date that parses. *)
Lemma getMonthLabels_expected (blocks : Grid) (fullYear : bool) (months : list Z) :
  Forall2 (fun week m => firstCellMonth week = Some m)
          (labelledWeeks blocks fullYear) months ->
  getMonthLabels blocks fullYear = Ok (expectedLabels months).
Proof.
  intros H. unfold getMonthLabels. rewrite slice_labelledWeeks.
  destruct H as [| week m weeks months' Hm Hrest]; [reflexivity |].
  pose proof (firstCellMonth_ge_1 _ _ Hm) as Hm1.
  rewrite (monthLabelsLoop_step _ _ _ _ _ _ Hm). cbn [Nat.eqb andb expectedLabels].
  destruct (m =? 0) eqn:E0; [apply Z.eqb_eq in E0; lia |]. cbn [negb andb].
  destruct (m =? 12); cbn [negb];
    rewrite (monthLabelsLoop_tail _ _ _ _ _ Hrest); reflexivity.
Qed.

Lemma yearColumnMonths_of_grid (year s0 : Z) (n : nat) :
  let jan1 := DayFromYear year in
  let dec31 := DayFromYear (year + 1) - 1 in
  jan1 - 3 <= s0 ->
  n = numWeeks s0 dec31 ->
  map (fun k => getMonth (s0 + 7 * Z.of_nat k) + 1) (seq 0 n)
  = yearColumnMonths (InLeapYear year) (s0 - jan1) n.
Proof.
  intros jan1 dec31 Hs0 Hn. unfold yearColumnMonths.
  apply map_ext_in. intros k Hk. apply in_seq in Hk.
  assert (Hle : s0 + 7 * Z.of_nat k <= dec31) by (apply numWeeks_lt; lia).
  unfold getMonth.
  destruct (s0 - jan1 + 7 * Z.of_nat k <? 0) eqn:E.
  - apply Z.ltb_lt in E.
    replace (s0 + 7 * Z.of_nat k)
      with (DayFromYear year - (jan1 - (s0 + 7 * Z.of_nat k))) by (subst jan1; lia).
    rewrite MonthFromDay_before_year by lia. reflexivity.
  - apply Z.ltb_ge in E.
    replace (s0 + 7 * Z.of_nat k)
      with (DayFromYear year + (s0 - jan1 + 7 * Z.of_nat k)) by (subst jan1; lia).
    rewrite MonthFromDay_in_year; [reflexivity |].
    subst dec31. rewrite DayFromYear_succ in Hle. subst jan1. lia.
Qed.

(** The labels of a year are those of the twelve months, whatever the week
    day the year starts on and whether or not it is a leap year. *)
Lemma expectedLabels_of_year (leap : bool) (d : Z) :
  0 <= d <= 6 ->
  let c := if d <=? 3 then - d else 7 - d in
  let n := Z.to_nat ((364 + (if leap then 1 else 0) - c) / 7 + 1) in
  map MonthLabel.label (expectedLabels (yearColumnMonths leap c n)) = monthNames.
Proof.
  intros Hd.
  assert (Hc : d = 0 \/ d = 1 \/ d = 2 \/ d = 3 \/ d = 4 \/ d = 5 \/ d = 6) by lia.
  destruct leap;
    repeat (destruct Hc as [-> | Hc]; [vm_compute; reflexivity |]);
    subst d; vm_compute; reflexivity.
Qed.

(** The result for a calendar year written with four digits. *)
Lemma calendar_year_graph (now year : Z) :
  1000 <= year < 9999 ->
  let d := getDay (DayFromYear year) in
  let c := if d <=? 3 then - d else 7 - d in
  let n := Z.to_nat ((364 + (if InLeapYear year then 1 else 0) - c) / 7 + 1) in
  exists blocks,
    getGraphDataForYear now year data false
    = Ok (GraphData.mk year blocks
            (expectedLabels (yearColumnMonths (InLeapYear year) c n))
            (getContributionCountForYear data year)).
Proof.
  intros Hy d c n.
  destruct (calendar_year_window now year ltac:(lia)) as [Hf Hl].
  rewrite MakeDay_jan_1 in Hf. rewrite MakeDay_dec_31 in Hl.
  set (jan1 := DayFromYear year) in *. set (dec31 := DayFromYear (year + 1) - 1) in *.
  assert (Hlen : dec31 = jan1 + 364 + (if InLeapYear year then 1 else 0)).
  { subst jan1 dec31. rewrite DayFromYear_succ. unfold DaysInYear.
    destruct (InLeapYear year); lia. }
  assert (Hlo : DayFromYear 1 + 6 <= jan1).
  { subst jan1.
    pose proof (DayFromYear_mono 1000 year ltac:(lia)) as Hm.
    change (DayFromYear 1000) with (-354285) in Hm.
    change (DayFromYear 1) with (-719162). lia. }
  assert (Hhi : dec31 + 1 < DayFromYear 10000).
  { subst dec31.
    pose proof (DayFromYear_mono (year + 1) 9999 ltac:(lia)) as Hm.
    change (DayFromYear 9999) with 2932532 in Hm.
    change (DayFromYear 10000) with 2932897. lia. }
  pose proof (getDay_range jan1) as Hd. fold d in Hd.
  destruct (window_grid jan1 dec31 data) as (s0 & Hgrid & Hs0 & Hs);
    [destruct (InLeapYear year); lia | lia | exact Hhi |].
  fold d in Hs.
  assert (Hc : s0 = jan1 + c).
  { subst c. destruct (d <=? 3); lia. }
  assert (Hc3 : -3 <= c).
  { subst c. destruct (d <=? 3) eqn:E;
      [apply Z.leb_le in E | apply Z.leb_gt in E]; lia. }
  assert (Hn : numWeeks s0 dec31 = n).
  { subst n. unfold numWeeks. do 3 f_equal. lia. }
  rewrite Hn in Hgrid.
  assert (Hlabels :
    getMonthLabels (map (map (cell data)) (weeksFrom n s0 dec31)) false
    = Ok (expectedLabels (yearColumnMonths (InLeapYear year) c n))).
  { apply getMonthLabels_expected. unfold labelledWeeks.
    replace c with (s0 - jan1) by lia.
    pose proof (yearColumnMonths_of_grid year s0 n) as Hm. cbv zeta in Hm.
    fold jan1 in Hm. fold dec31 in Hm.
    rewrite <- Hm; [| lia | symmetry; exact Hn].
    apply weeksFrom_months; [symmetry; exact Hn | lia | lia]. }
  eexists. unfold getGraphDataForYear, getBlocksForYear.
  rewrite Hf, Hl, Hgrid. cbn [mbind result_bind]. rewrite Hlabels.
  reflexivity.
Qed.

(** X10: for every calendar year written with four digits the result of
    [getGraphDataForYear] comes without an exception, carries the requested
    year and the total of the year's summary, and its month labels are
    exactly the twelve months from "Jan" to "Dec", in order. *)
Theorem calendar_year_labels (now year : Z) :
  1000 <= year < 9999 ->
  exists g,
    getGraphDataForYear now year data false = Ok g
    /\ GraphData.year g = year
    /\ map MonthLabel.label (GraphData.monthLabels g) = monthNames
    /\ GraphData.totalCount g = getContributionCountForYear data year.
Proof.
  intros Hy.
  destruct (calendar_year_graph now year Hy) as (blocks & Hg).
  eexists. split; [exact Hg |].
  cbn [GraphData.year GraphData.monthLabels GraphData.totalCount].
  split; [reflexivity |]. split; [| reflexivity].
  apply (expectedLabels_of_year (InLeapYear year) (getDay (DayFromYear year))).
  apply getDay_range.
Qed.

End YearLabels.

Lemma calendar_year_labels_witness :
  exists g,
    getGraphDataForYear dec9 2018 june false = Ok g
    /\ GraphData.year g = 2018
    /\ map MonthLabel.label (GraphData.monthLabels g) = monthNames
    /\ GraphData.totalCount g = getContributionCountForYear june 2018.
Proof.
  apply (calendar_year_labels june dec9 2018). lia.
Defined.

(** ** More on the orchestrator and the totals *)

Section OrchestratorMore.

Variable data : ApiResult.t.

(** The result for the rolling window, for a day [now] in the range of the
    date strings. *)
Lemma rolling_graph (now year : Z) :
  DayFromYear 3 <= now ->
  now + 1 < DayFromYear 10000 ->
  exists blocks labels,
    getGraphDataForYear now year data true
    = Ok (GraphData.mk year blocks labels (getContributionCountForLastYear now data)).
Proof.
  intros Hlo Hhi.
  pose proof (subYears_distance now) as Hdist.
  pose proof (getDay_range (subYears now 1)) as Hd.
  assert (H13 : DayFromYear 1 + 730 <= DayFromYear 3) by (vm_compute; discriminate).
  destruct (window_grid (subYears now 1) now data) as (s0 & Hgrid & Hs0 & Hs);
    [lia | lia | exact Hhi |].
  assert (Hr : subYears now 1 - 3 <= s0)
    by (destruct (getDay (subYears now 1) <=? 3) eqn:E;
        [apply Z.leb_le in E | apply Z.leb_gt in E]; lia).
  assert (Hlabels :
    getMonthLabels (map (map (cell data)) (weeksFrom (numWeeks s0 now) s0 now)) true
    = Ok (expectedLabels
            (removelast (map (fun k => getMonth (s0 + 7 * Z.of_nat k) + 1)
                             (seq 0 (numWeeks s0 now)))))).
  { apply getMonthLabels_expected. unfold labelledWeeks.
    apply Forall2_removelast. apply weeksFrom_months; [reflexivity | lia | lia]. }
  do 2 eexists. unfold getGraphDataForYear, getBlocksForYear, firstDateOf, lastDateOf.
  rewrite Hgrid. cbn [mbind result_bind]. rewrite Hlabels. reflexivity.
Qed.

Lemma getGraphDataForYear_year (now year : Z) (fullYear : bool) (g : GraphData.t) :
  getGraphDataForYear now year data fullYear = Ok g -> GraphData.year g = year.
Proof.
  unfold getGraphDataForYear.
  destruct (getBlocksForYear now year data fullYear) as [blocks | e]; cbn; [| discriminate].
  destruct (getMonthLabels blocks fullYear) as [labels | e]; cbn; [| discriminate].
  intros [= <-]. reflexivity.
Qed.

Lemma mapM_years (now : Z) (fullYear : bool) (years : list Z) (gs : list GraphData.t) :
  mapM (graphDataForRequestedYear now fullYear data) years = Ok gs ->
  map GraphData.year gs = years.
Proof.
  revert gs. induction years as [| year years IH]; intros gs; cbn [mapM].
  - intros [= <-]. reflexivity.
  - destruct (graphDataForRequestedYear now fullYear data year) as [g | e] eqn:Eg;
      cbn; [| discriminate].
    destruct (mapM _ years) as [gs' | e]; cbn; [| discriminate].
    intros [= <-]. cbn [map]. f_equal; [| apply IH; reflexivity].
    unfold graphDataForRequestedYear in Eg. eapply getGraphDataForYear_year. exact Eg.
Qed.

Lemma mapM_requested_years (now : Z) (fullYear : bool) (years : list Z) :
  Forall (fun year => 1000 <= year < 9999) years ->
  exists gs, mapM (graphDataForRequestedYear now fullYear data) years = Ok gs.
Proof.
  intros Hall. induction Hall as [| year years Hy _ [gs IH]]; [exists []; reflexivity |].
  assert (Hg : exists g, graphDataForRequestedYear now fullYear data year = Ok g).
  { unfold graphDataForRequestedYear. rewrite isSameYear_requested by lia.
    destruct ((year =? getFullYear now) && fullYear) eqn:E.
    - apply andb_true_iff in E. destruct E as [E _]. apply Z.eqb_eq in E.
      unfold getFullYear in E. pose proof (YearFromDay_spec now) as Hs. rewrite <- E in Hs.
      pose proof (DayFromYear_mono 3 year ltac:(lia)).
      pose proof (DayFromYear_mono (year + 1) 9999 ltac:(lia)) as Hm.
      change (DayFromYear 9999) with 2932532 in Hm.
      destruct (rolling_graph now year) as (blocks & labels & Hr);
        [lia | change (DayFromYear 10000) with 2932897; lia |].
      eexists. exact Hr.
    - destruct (calendar_year_graph data now year Hy) as (blocks & Hc).
      eexists. exact Hc. }
  destruct Hg as [g Hg]. exists (g :: gs). cbn [mapM]. rewrite Hg, IH. reflexivity.
Qed.

End OrchestratorMore.

(** X11: when the request succeeds, the results are those of the requested
    years, one each and in the order of the request. *)
Theorem results_follow_the_request (now : Z) (zone : Z -> Z) (options : RequestOptions.t)
  (githubData : ApiResult.t) (contributions : gmap string Z) :
  match getGitHubGraphData now zone options githubData contributions with
  | Ok gs => map GraphData.year gs = RequestOptions.years options
  | Throw _ => True
  end.
Proof.
  destruct (getGitHubGraphData now zone options githubData contributions) as [gs | e] eqn:E;
    [| exact I].
  unfold getGitHubGraphData in E.
  destruct (Nat.eqb _ 0); [discriminate |].
  eapply mapM_years. exact E.
Qed.

(** X12: a request for years written with four digits (1000 to 9998) on a
    primary series that has at least one year summary raises no exception,
    in either mode and whatever the day [now] is: it returns one result per
    requested year. *)
Theorem four_digit_years_succeed (now : Z) (zone : Z -> Z) (options : RequestOptions.t)
  (githubData : ApiResult.t) (contributions : gmap string Z) :
  ApiResult.years githubData <> [] ->
  Forall (fun year => 1000 <= year < 9999) (RequestOptions.years options) ->
  exists gs,
    getGitHubGraphData now zone options githubData contributions = Ok gs
    /\ map GraphData.year gs = RequestOptions.years options.
Proof.
  intros Hys Hall. unfold getGitHubGraphData.
  rewrite combineContributions_years, length_map.
  destruct (ApiResult.years githubData) as [| y ys] eqn:Ey; [contradiction |].
  cbn [length Nat.eqb].
  destruct (mapM_requested_years
              (combineContributions zone contributions githubData) now
              (RequestOptions.fullYear options) _ Hall) as [gs Hgs].
  exists gs. split; [exact Hgs |]. eapply mapM_years. exact Hgs.
Qed.

Lemma four_digit_years_succeed_witness :
  exists gs,
    getGitHubGraphData dec9 utc (RequestOptions.mk true None None [2023; 2022]) june juneGitlab
    = Ok gs
    /\ map GraphData.year gs = [2023; 2022].
Proof.
  apply (four_digit_years_succeed dec9 utc (RequestOptions.mk true None None [2023; 2022])
           june juneGitlab).
  - discriminate.
  - repeat constructor; lia.
Defined.

Section TotalsMore.



End TotalsMore.

Section LabelErrors.

Lemma monthLabelsLoop_Ok_columns (weeks : Grid) (x : nat) (p : Z) (acc labels : MonthLabels) :
  monthLabelsLoop weeks x p acc = Ok labels ->
  Forall (fun week => is_Some (firstCellMonth week)) weeks.
Proof.
  revert x p acc. induction weeks as [| week rest IH]; intros x p acc; [constructor |].
  cbn [monthLabelsLoop]. destruct week as [| first more]; [discriminate |].
  destruct (parseISO (Block.date first)) as [d |] eqn:Ed; [| discriminate].
  intros H. constructor; [cbn [firstCellMonth]; rewrite Ed; eexists; reflexivity |].
  destruct (_ && _); eapply IH; exact H.
Qed.

Lemma Forall_is_Some_Forall2 {A B : Type} (f : A -> option B) (l : list A) :
  Forall (fun a => is_Some (f a)) l -> exists k, Forall2 (fun a b => f a = Some b) l k.
Proof.
  intros H. induction H as [| a l [b Hb] _ [k IH]]; [exists []; constructor |].
  exists (b :: k). constructor; assumption.
Qed.

(** X14: [getMonthLabels] returns exactly when every walked column has a
    first cell whose date parses; an empty walked column or a first date
    that does not parse raises an exception. With [fullYear] the last
    column of the grid is not walked and cannot make it fail. *)
Theorem month_labels_defined_iff (blocks : Grid) (fullYear : bool) :
  (exists labels, getMonthLabels blocks fullYear = Ok labels)
  <-> Forall (fun week => is_Some (firstCellMonth week)) (labelledWeeks blocks fullYear).
Proof.
  split.
  - intros [labels H]. unfold getMonthLabels in H. rewrite slice_labelledWeeks in H.
    eapply monthLabelsLoop_Ok_columns. exact H.
  - intros H. apply Forall_is_Some_Forall2 in H. destruct H as [months H].
    eexists. apply getMonthLabels_expected. exact H.
Qed.

Example empty_column_raises :
  getMonthLabels [[Block.mk "2019-01-06" None]; []; [Block.mk "2019-01-20" None]] false
  = Throw undefinedDate
  /\ getMonthLabels [[Block.mk "2019-01-06" None]; [Block.mk "2019-01-13" None]; []] true
     = Ok [MonthLabel.mk 0 "Jan"].
Proof. split; reflexivity. Qed.

End LabelErrors.
